(** * SmartBank credential and fraud-risk engine

    A shallow embedding of the server-side login path of the SmartBank
    application:

    - the cryptographic utilities [sha512Hash], [verifyMpin], [rsaDecrypt]
      and [generateSalt] (second part of [server/utils/categorizer.js],
      required by the routes as [../utils/crypto]),
    - the User schema with [isLocked], [incrementFailedAttempts],
      [resetFailedAttempts] and [toJSON] (second part of
      [server/models/Budget.js], required as [../models/User]),
    - the attempt ledger and its schema ([server/models/LoginAttempt.js]),
    - [calculateRiskScore] and [logLoginAttempt]
      ([server/middleware/fraudDetector.js]),
    - the verify-otp, register and login handlers
      ([server/routes/auth.js]).

    Conventions.  JavaScript strings are Rocq [string]s, instants are
    milliseconds since the epoch in [Z], a value that may be [undefined] is
    an [option].  One request is served at a single clock reading.  The
    collaborators that are not code of the repository (Node's [crypto],
    [jsonwebtoken], the locale of [toLocaleTimeString]) are the fields of
    the class [Platform]; the MongoDB collections are explicit state, and
    their failures are switches of the [Runtime] record. *)

From Stdlib Require Import ZArith NArith String Ascii List Lia.
From Stdlib.Strings Require Import Byte.
From stdpp Require Import base option list gmap strings pretty sorting.

Local Open Scope string_scope.
Local Open Scope list_scope.
Local Open Scope Z_scope.

(** ** Results of code that may throw *)

Inductive outcome (A : Type) : Type :=
| Ret (a : A)
| Throw (msg : string).
Arguments Ret {A} a.
Arguments Throw {A} msg.

(** ** Strings and regular expressions used by the routes *)

Module Js.

(** [\d] : an ASCII digit. *)
Definition is_digit (c : ascii) : bool :=
  let n := N_of_ascii c in ((48 <=? n) && (n <=? 57))%N.

(** [s.replace(/\D/g, '')] *)
Fixpoint replace_non_digits (s : string) : string :=
  match s with
  | EmptyString => EmptyString
  | String c r =>
      if is_digit c then String c (replace_non_digits r)
      else replace_non_digits r
  end.

Fixpoint all_digits (s : string) : bool :=
  match s with
  | EmptyString => true
  | String c r => is_digit c && all_digits r
  end.

Definition len (s : string) : Z := Z.of_nat (String.length s).

(** [/^\d{4}$|^\d{6}$/.test(s)] *)
Definition test_mpin_format (s : string) : bool :=
  all_digits s && ((len s =? 4) || (len s =? 6)).

(** [/^\d{10,15}$/.test(s)] *)
Definition test_phone_format (s : string) : bool :=
  all_digits s && (10 <=? len s) && (len s <=? 15).

(** Truthiness of a possibly-undefined string: [undefined] and [''] are
    falsy. *)
Definition truthy (v : option string) : bool :=
  match v with
  | Some s => negb (String.eqb s "")
  | None => false
  end.

(** [v || d] on strings. *)
Definition or_default (v : option string) (d : string) : string :=
  match v with
  | Some s => if String.eqb s "" then d else s
  | None => d
  end.

(** [n || 0] on numbers ([undefined] and [0] are falsy). *)
Definition num_or_zero (v : option Z) : Z :=
  match v with
  | Some n => n
  | None => 0
  end.

End Js.

(** ** Buffers and hexadecimal encoding *)

Module Buffer.

Definition hex_digit (n : N) : ascii :=
  if (n <? 10)%N then ascii_of_N (48 + n) else ascii_of_N (87 + n).

(** Two lower-case hexadecimal characters per byte, as [digest('hex')]. *)
Definition byte_to_hex (b : byte) : string :=
  let n := Byte.to_N b in
  String (hex_digit (n / 16)) (String (hex_digit (n mod 16)) EmptyString).

Fixpoint to_hex (bs : list byte) : string :=
  match bs with
  | [] => EmptyString
  | b :: r => byte_to_hex b +:+ to_hex r
  end.

Definition hex_val (c : ascii) : option N :=
  let n := N_of_ascii c in
  if ((48 <=? n) && (n <=? 57))%N then Some (n - 48)%N
  else if ((97 <=? n) && (n <=? 102))%N then Some (n - 87)%N
  else if ((65 <=? n) && (n <=? 70))%N then Some (n - 55)%N
  else None.

(** [Buffer.from(s, 'hex')]: decoding stops at the first pair that is not
    two hexadecimal characters. *)
Fixpoint from_hex (s : string) : list byte :=
  match s with
  | String a (String b r) =>
      match hex_val a, hex_val b with
      | Some x, Some y =>
          match Byte.of_N (16 * x + y) with
          | Some v => v :: from_hex r
          | None => []
          end
      | _, _ => []
      end
  | _ => []
  end.

End Buffer.

#[global] Instance byte_eq_dec : EqDecision byte := Byte.byte_eq_dec.

(** ** The platform: what the repository calls but does not define *)

Class Platform := {
  (** [crypto.createHash('sha512').update(s).digest()] *)
  sha512 : string → list byte;
  sha512_length : ∀ s, length (sha512 s) = 64%nat;
  (** [crypto.privateDecrypt] with the custodian's private key, OAEP and
      SHA-256, applied to the base64 decoding of the argument and read back
      as UTF-8; [None] when any of these steps throws. *)
  privateDecrypt : string → option string;
  (** [jwt.sign({userId, phone, iat}, JWT_SECRET, ...)] *)
  jwt_sign : string → string → Z → string;
  (** [new Date(t).toLocaleTimeString()] *)
  toLocaleTimeString : Z → string;
}.

(** ** Cryptographic utilities ([../utils/crypto]) *)

Section Crypto.
Context `{Platform}.

(** [crypto.timingSafeEqual]: throws on buffers of different lengths,
    otherwise accumulates the differences of all the bytes. *)
Definition timingSafeEqual (a b : list byte) : outcome bool :=
  if negb (length a =? length b)%nat
  then Throw "Input buffers must have the same byte length"
  else
    Ret (N.eqb
           (fold_left
              (λ acc p, N.lor acc (N.lxor (Byte.to_N p.1) (Byte.to_N p.2)))
              (combine a b) 0%N)
           0%N).

Definition rsaDecrypt (encryptedData : string) : outcome string :=
  match privateDecrypt encryptedData with
  | Some decrypted => Ret decrypted
  | None => Throw "Decryption failed - invalid encrypted data"
  end.

Definition sha512Hash (mpin salt : string) : string :=
  Buffer.to_hex (sha512 (salt +:+ mpin)).

Definition verifyMpin (inputMpin storedHash salt : string) : outcome bool :=
  let inputHash := sha512Hash inputMpin salt in
  timingSafeEqual (Buffer.from_hex inputHash) (Buffer.from_hex storedHash).

End Crypto.

(** ** Plain JavaScript objects, as [toObject] and the JSON responses see them *)

#[local] Unset Elimination Schemes.
Inductive JsValue : Type :=
| JNull
| JBool (b : bool)
| JNum (n : Z)
| JStr (s : string)
| JDate (t : Z)
| JArr (l : list JsValue)
| JObj (m : gmap string JsValue).
#[local] Set Elimination Schemes.

Definition JDateOrNull (t : option Z) : JsValue :=
  match t with
  | Some d => JDate d
  | None => JNull
  end.

(** ** The documents of the two collections *)

Module Device.
Record t := {
  fingerprint : string;
  userAgent : string;
  lastUsed : Z;
  trusted : bool;
}.

Definition toObject (d : t) : JsValue :=
  JObj (list_to_map
          [("fingerprint", JStr (fingerprint d));
           ("userAgent", JStr (userAgent d));
           ("lastUsed", JDate (lastUsed d));
           ("trusted", JBool (trusted d))]).
End Device.

Module LoginAttempt.
Record t := {
  phone : string;
  ip : string;
  fingerprint : string;
  userAgent : string;
  success : bool;
  reason : string;
  riskScore : Z;
  timestamp : Z;
}.

Definition reason_enum : list string :=
  ["success"; "wrong_mpin"; "account_locked"; "fraud_detected";
   "otp_failed"; "invalid_data"].

(** Schema validation: [phone] and [ip] are required (an empty string
    does not satisfy [required]), [reason] is one of the enumeration,
    [riskScore] lies between 0 and 100. *)
Definition validate (a : t) : bool :=
  negb (String.eqb (phone a) "")
  && negb (String.eqb (ip a) "")
  && bool_decide (reason a ∈ reason_enum)
  && (0 <=? riskScore a) && (riskScore a <=? 100).
End LoginAttempt.

Module UserDoc.
Record t := {
  _id : string;
  phone : string;
  name : string;
  mpinHash : string;
  mpinSalt : string;
  devices : list Device.t;
  failedAttempts : Z;
  lockedUntil : option Z;
  createdAt : Z;
  lastLogin : option Z;
  __v : Z;
}.

(** Schema validation of a new document: [phone] matches
    [/^\d{10,15}$/], [mpinHash] has exactly 128 characters, [mpinSalt] is
    required, every device has a fingerprint, [failedAttempts] is at
    most 5. *)
Definition validate (u : t) : bool :=
  Js.test_phone_format (phone u)
  && (Js.len (mpinHash u) =? 128)
  && negb (String.eqb (mpinSalt u) "")
  && forallb (λ d, negb (String.eqb (Device.fingerprint d) "")) (devices u)
  && (failedAttempts u <=? 5).

(** [this.toObject()] *)
Definition toObject (u : t) : gmap string JsValue :=
  list_to_map
    [("_id", JStr (_id u));
     ("phone", JStr (phone u));
     ("name", JStr (name u));
     ("mpinHash", JStr (mpinHash u));
     ("mpinSalt", JStr (mpinSalt u));
     ("devices", JArr (map Device.toObject (devices u)));
     ("failedAttempts", JNum (failedAttempts u));
     ("lockedUntil", JDateOrNull (lockedUntil u));
     ("createdAt", JDate (createdAt u));
     ("lastLogin", JDateOrNull (lastLogin u));
     ("__v", JNum (__v u))].

(** [userSchema.methods.toJSON] *)
Definition toJSON (this : t) : gmap string JsValue :=
  let user := toObject this in
  let user := delete "mpinHash" user in
  let user := delete "mpinSalt" user in
  let user := delete "__v" user in
  user.
End UserDoc.

(** ** The state a request runs against *)

(** What the process reads from its surroundings while it serves one
    request. *)
Record Runtime := {
  now : Z;                       (* [Date.now()] *)
  tzOffset : Z;                  (* local time minus UTC, in milliseconds *)
  usersDown : bool;              (* operations on the users collection reject *)
  ledgerFindDown : bool;         (* [LoginAttempt.find] rejects *)
  ledgerCreateDown : bool;       (* [LoginAttempt.create] rejects *)
  randomBytes32 : list byte;     (* [crypto.randomBytes(32)] *)
  newObjectId : string;          (* the [_id] MongoDB gives a new document *)
}.

(** [new Date().getHours()] *)
Definition getHours (rt : Runtime) : Z :=
  ((now rt + tzOffset rt) / 3600000) mod 24.

(** The argument of [logLoginAttempt]. *)
Record LogData := {
  log_phone : string;
  log_ip : string;
  log_fingerprint : option string;
  log_userAgent : option string;
  log_success : bool;
  log_reason : option string;
  log_riskScore : option Z;
}.

(** The calls a route handler makes to its collaborators, in order. *)
Inductive Call : Type :=
| Call_User_findOne (phone : string)
| Call_User_create
| Call_User_save
| Call_isLocked
| Call_incrementFailedAttempts
| Call_resetFailedAttempts
| Call_calculateRiskScore (phone ip fingerprint : string)
| Call_rsaDecrypt
| Call_verifyMpin
| Call_generateToken
| Call_logLoginAttempt (data : LogData).

Record Mem := {
  users : gmap string UserDoc.t;        (* keyed by [phone], a unique index *)
  attempts : list LoginAttempt.t;       (* in insertion order *)
  calls : list Call;
}.

(** ** Handlers: state passing with exceptions *)

Definition Handler (A : Type) : Type := Mem → outcome A * Mem.

Definition ret {A} (a : A) : Handler A := λ m, (Ret a, m).
Definition throw {A} (msg : string) : Handler A := λ m, (Throw msg, m).
Definition bind {A B} (c : Handler A) (k : A → Handler B) : Handler B :=
  λ m, match c m with
       | (Ret a, m') => k a m'
       | (Throw e, m') => (Throw e, m')
       end.
(** [try { c } catch (err) { h err }] *)
Definition try_catch {A} (c : Handler A) (h : string → Handler A) : Handler A :=
  λ m, match c m with
       | (Ret a, m') => (Ret a, m')
       | (Throw e, m') => h e m'
       end.
Definition lift {A} (o : outcome A) : Handler A := λ m, (o, m).
Definition get : Handler Mem := λ m, (Ret m, m).
Definition called (c : Call) : Handler unit :=
  λ m, (Ret tt, {| users := users m; attempts := attempts m;
                   calls := calls m ++ [c] |}).
Definition put_users (us : gmap string UserDoc.t) : Handler unit :=
  λ m, (Ret tt, {| users := us; attempts := attempts m; calls := calls m |}).
Definition put_attempts (l : list LoginAttempt.t) : Handler unit :=
  λ m, (Ret tt, {| users := users m; attempts := l; calls := calls m |}).

Declare Scope handler_scope.
Delimit Scope handler_scope with handler.
Notation "x <- c ;; k" := (bind c (λ x, k))
  (at level 100, c at next level, right associativity) : handler_scope.
Notation "c ;; k" := (bind c (λ _, k))
  (at level 100, right associativity) : handler_scope.
Local Open Scope handler_scope.

(** ** The models [User] and [LoginAttempt]: operations *)

Module User.
Import UserDoc.

(** [User.findOne({ phone })] *)
Definition findOne (rt : Runtime) (phone : string) : Handler (option UserDoc.t) :=
  called (Call_User_findOne phone);;
  if usersDown rt then throw "users collection unavailable"
  else m <- get;; ret (users m !! phone).

(** [this.save()].  The paths the routes modify always pass validation
    ([failedAttempts] stays at most 5, a pushed device has a fingerprint),
    so only the collection itself can reject.  The version key [__v] is
    maintained by the driver and never read by the repository; it is left
    as it is. *)
Definition save (rt : Runtime) (this : UserDoc.t) : Handler unit :=
  called Call_User_save;;
  if usersDown rt then throw "users collection unavailable"
  else m <- get;; put_users (<[UserDoc.phone this := this]> (users m)).

(** [User.create(doc)]: validation, then the unique index on [phone]. *)
Definition create (rt : Runtime) (doc : UserDoc.t) : Handler UserDoc.t :=
  called Call_User_create;;
  if usersDown rt then throw "users collection unavailable"
  else if negb (UserDoc.validate doc) then throw "User validation failed"
  else
    m <- get;;
    match users m !! UserDoc.phone doc with
    | Some _ => throw "E11000 duplicate key error"
    | None => put_users (<[UserDoc.phone doc := doc]> (users m));; ret doc
    end.

(** [userSchema.methods.isLocked] *)
Definition isLocked (rt : Runtime) (this : UserDoc.t) : bool :=
  match lockedUntil this with
  | None => false
  | Some until => now rt <? until
  end.

Definition set_failures (this : UserDoc.t) (n : Z) : UserDoc.t :=
  {| _id := _id this; phone := phone this; name := name this;
     mpinHash := mpinHash this; mpinSalt := mpinSalt this;
     devices := devices this; failedAttempts := n;
     lockedUntil := lockedUntil this; createdAt := createdAt this;
     lastLogin := lastLogin this; __v := __v this |}.

Definition set_lockedUntil (this : UserDoc.t) (l : option Z) : UserDoc.t :=
  {| _id := _id this; phone := phone this; name := name this;
     mpinHash := mpinHash this; mpinSalt := mpinSalt this;
     devices := devices this; failedAttempts := failedAttempts this;
     lockedUntil := l; createdAt := createdAt this;
     lastLogin := lastLogin this; __v := __v this |}.

Definition set_lastLogin (this : UserDoc.t) (l : option Z) : UserDoc.t :=
  {| _id := _id this; phone := phone this; name := name this;
     mpinHash := mpinHash this; mpinSalt := mpinSalt this;
     devices := devices this; failedAttempts := failedAttempts this;
     lockedUntil := lockedUntil this; createdAt := createdAt this;
     lastLogin := l; __v := __v this |}.

Definition set_devices (this : UserDoc.t) (ds : list Device.t) : UserDoc.t :=
  {| _id := _id this; phone := phone this; name := name this;
     mpinHash := mpinHash this; mpinSalt := mpinSalt this;
     devices := ds; failedAttempts := failedAttempts this;
     lockedUntil := lockedUntil this; createdAt := createdAt this;
     lastLogin := lastLogin this; __v := __v this |}.

(** The in-memory part of [incrementFailedAttempts]: the assignments made
    to [this] before [this.save()]. *)
Definition failure_recorded (rt : Runtime) (this : UserDoc.t) : UserDoc.t :=
  let this := set_failures this (failedAttempts this + 1) in
  if 5 <=? failedAttempts this then
    let this := set_lockedUntil this (Some (now rt + 30 * 60 * 1000)) in
    set_failures this 0
  else this.

(** [userSchema.methods.incrementFailedAttempts].  The document is
    mutated in memory and then saved; the mutated document is returned
    because the caller reads it afterwards. *)
Definition incrementFailedAttempts (rt : Runtime) (this : UserDoc.t)
  : Handler UserDoc.t :=
  called Call_incrementFailedAttempts;;
  let this := failure_recorded rt this in
  save rt this;;
  ret this.

(** The in-memory part of [resetFailedAttempts]. *)
Definition success_recorded (rt : Runtime) (this : UserDoc.t) : UserDoc.t :=
  let this := set_failures this 0 in
  let this := set_lockedUntil this None in
  set_lastLogin this (Some (now rt)).

(** [userSchema.methods.resetFailedAttempts] *)
Definition resetFailedAttempts (rt : Runtime) (this : UserDoc.t)
  : Handler UserDoc.t :=
  called Call_resetFailedAttempts;;
  let this := success_recorded rt this in
  save rt this;;
  ret this.
End User.

Module Ledger.
Import LoginAttempt.

(** Sorting by [timestamp] in descending order; records with equal
    timestamps keep their insertion order. *)
Fixpoint insert_desc (a : LoginAttempt.t) (l : list LoginAttempt.t)
  : list LoginAttempt.t :=
  match l with
  | [] => [a]
  | b :: r =>
      if timestamp b <=? timestamp a then a :: b :: r
      else b :: insert_desc a r
  end.

Definition sort_desc (l : list LoginAttempt.t) : list LoginAttempt.t :=
  foldr insert_desc [] l.

(** What the query [{ phone, timestamp: { $gte: since } }] with
    [.sort({ timestamp: -1 }).limit(n)] selects from the collection. *)
Definition query (ph : string) (since : Z) (n : nat)
    (rows : list LoginAttempt.t) : list LoginAttempt.t :=
  take n (sort_desc
            (List.filter
               (λ a, String.eqb (phone a) ph && (since <=? timestamp a))
               rows)).

(** [LoginAttempt.find(...).sort(...).limit(n)] *)
Definition find (rt : Runtime) (ph : string) (since : Z) (n : nat)
  : Handler (list LoginAttempt.t) :=
  if ledgerFindDown rt then throw "login attempts collection unavailable"
  else m <- get;; ret (query ph since n (attempts m)).

(** [LoginAttempt.create(doc)] *)
Definition create (rt : Runtime) (doc : LoginAttempt.t) : Handler unit :=
  if ledgerCreateDown rt then throw "login attempts collection unavailable"
  else if negb (LoginAttempt.validate doc)
  then throw "LoginAttempt validation failed"
  else m <- get;; put_attempts (attempts m ++ [doc]).
End Ledger.

(** ** server/middleware/fraudDetector.js *)

Inductive Action : Type := Allow | Warn | Block.

Record RiskAssessment := {
  score : Z;
  flags : list string;
  action : Action;
}.

(** [[...new Set(l)]]: the distinct elements, in order of first occurrence. *)
Fixpoint distinct (seen l : list string) : list string :=
  match l with
  | [] => []
  | x :: r =>
      if bool_decide (x ∈ seen) then distinct seen r
      else x :: distinct (x :: seen) r
  end.

Definition includes (l : list string) (x : string) : bool := bool_decide (x ∈ l).

(** [if (cond) { flags.push(name); score += points; }] *)
Definition raise_flag (cond : bool) (name : string) (points : Z)
    (acc : list string * Z) : list string * Z :=
  if cond then (acc.1 ++ [name], acc.2 + points) else acc.

(** The body of [calculateRiskScore] once the history has been read.  The
    ratio test [recentFails / Math.max(n, 1) > 0.5] is taken on integers as
    [2 * recentFails > Math.max(n, 1)]: for counts up to 50 the rounded
    quotient exceeds one half exactly when the true quotient does. *)
Definition assess (rt : Runtime) (recentAttempts : list LoginAttempt.t)
    (currentIp fingerprint : string) : RiskAssessment :=
  let acc : list string * Z := ([], 0) in
  let acc :=
    if (length recentAttempts =? 0)%nat then
      raise_flag true "first_login" 5 acc
    else
      let succeeded := List.filter LoginAttempt.success recentAttempts in
      let knownIps := distinct [] (map LoginAttempt.ip succeeded) in
      let acc :=
        raise_flag ((0 <? length knownIps)%nat && negb (includes knownIps currentIp))
                   "new_ip" 20 acc in
      let knownFingerprints := distinct [] (map LoginAttempt.fingerprint succeeded) in
      let acc :=
        raise_flag ((0 <? length knownFingerprints)%nat
                    && negb (includes knownFingerprints fingerprint))
                   "new_device" 25 acc in
      let fiveMinAgo := now rt - 5 * 60 * 1000 in
      let rapidAttempts :=
        List.filter (λ a, fiveMinAgo <=? LoginAttempt.timestamp a) recentAttempts in
      let acc := raise_flag (3 <? length rapidAttempts)%nat "rapid_attempts" 30 acc in
      let recentFails :=
        Z.of_nat (length (List.filter (λ a, negb (LoginAttempt.success a))
                                      recentAttempts)) in
      let acc :=
        raise_flag (Z.max (Z.of_nat (length recentAttempts)) 1 <? 2 * recentFails)
                   "high_failure_rate" 15 acc in
      acc in
  let hour := getHours rt in
  let acc := raise_flag ((2 <=? hour) && (hour <=? 5)) "unusual_hour" 10 acc in
  let action :=
    if 60 <? acc.2 then Block
    else if 30 <? acc.2 then Warn
    else Allow in
  {| score := Z.min acc.2 100; flags := acc.1; action := action |}.

Definition detection_error : RiskAssessment :=
  {| score := 10; flags := ["detection_error"]; action := Allow |}.

Definition calculateRiskScore (rt : Runtime) (phone currentIp fingerprint : string)
  : Handler RiskAssessment :=
  called (Call_calculateRiskScore phone currentIp fingerprint);;
  try_catch
    (recentAttempts <-
       Ledger.find rt phone (now rt - 30 * 24 * 60 * 60 * 1000) 50;;
     ret (assess rt recentAttempts currentIp fingerprint))
    (λ _, ret detection_error).

(** The document [logLoginAttempt] hands to [LoginAttempt.create]; the
    schema default stamps it with the current time. *)
Definition attempt_of (rt : Runtime) (data : LogData) : LoginAttempt.t :=
  {| LoginAttempt.phone := log_phone data;
     LoginAttempt.ip := log_ip data;
     LoginAttempt.fingerprint := Js.or_default (log_fingerprint data) "unknown";
     LoginAttempt.userAgent := Js.or_default (log_userAgent data) "";
     LoginAttempt.success := log_success data;
     LoginAttempt.reason := Js.or_default (log_reason data) "success";
     LoginAttempt.riskScore := Js.num_or_zero (log_riskScore data);
     LoginAttempt.timestamp := now rt |}.

Definition logLoginAttempt (rt : Runtime) (data : LogData) : Handler unit :=
  called (Call_logLoginAttempt data);;
  try_catch (Ledger.create rt (attempt_of rt data)) (λ _, ret tt).

(** ** server/routes/auth.js *)

Record Request := {
  body_phone : option string;
  body_encryptedMpin : option string;
  body_fingerprint : option string;
  body_firebaseToken : option string;
  body_demoMode : bool;
  req_ip : string;
  header_user_agent : option string;
}.

(** The JSON answers of the three routes, named after the error taxonomy;
    the HTTP status is given with each. *)
Inductive Response : Type :=
| InvalidInput (message : string)                                   (* 400 *)
| NotFound (message : string)                                       (* 404 *)
| AlreadyRegistered (message : string)                              (* 409 *)
| AccountLocked (message : string) (lockedUntil : option Z)         (* 423 *)
| RiskBlocked (message : string) (riskFlags : list string)          (* 403 *)
| WrongCredential (message : string) (attemptsRemaining : Z)        (* 401 *)
| OtpVerified (isNewUser : bool) (phone message : string)           (* 200 *)
| Registered (token : string) (user : gmap string JsValue)          (* 201 *)
| LoggedIn (token : string) (user : gmap string JsValue)
           (riskScore : Z) (riskFlags : list string)                (* 200 *)
| ServerError (message : string).                                   (* 500 *)

(** A body field that passes the [!field] test. *)
Definition present (v : option string) : option string :=
  match v with
  | Some s => if String.eqb s "" then None else Some s
  | None => None
  end.

Section Routes.
Context `{Platform}.
Variable rt : Runtime.

(** [crypto.randomBytes(32).toString('hex')] *)
Definition generateSalt : string := Buffer.to_hex (randomBytes32 rt).

Definition generateToken (userId phone : string) : string :=
  jwt_sign userId phone (now rt / 1000).

(** [POST /api/auth/verify-otp] *)
Definition verify_otp (req : Request) : Handler Response :=
  try_catch
    (match present (body_phone req) with
     | None => ret (InvalidInput "Phone number is required")
     | Some phone =>
         let sanitizedPhone := Js.replace_non_digits phone in
         if (Js.len sanitizedPhone <? 10) || (15 <? Js.len sanitizedPhone)
         then ret (InvalidInput "Invalid phone number format")
         else if negb (body_demoMode req)
                 && negb (Js.truthy (body_firebaseToken req))
         then ret (InvalidInput "Firebase token is required for OTP verification")
         else
           existingUser <- User.findOne rt sanitizedPhone;;
           ret (OtpVerified
                  (negb (bool_decide (is_Some existingUser)))
                  sanitizedPhone
                  (if bool_decide (is_Some existingUser)
                   then "OTP verified. Please enter your MPIN."
                   else "OTP verified. Please set up your MPIN."))
     end)
    (λ _, ret (ServerError "Server error during OTP verification")).

(** [POST /api/auth/register] *)
Definition register (req : Request) : Handler Response :=
  try_catch
    (match present (body_phone req), present (body_encryptedMpin req) with
     | Some phone, Some encryptedMpin =>
         let fingerprint := body_fingerprint req in
         let sanitizedPhone := Js.replace_non_digits phone in
         existingUser <- User.findOne rt sanitizedPhone;;
         match existingUser with
         | Some _ =>
             ret (AlreadyRegistered "User already registered. Please login instead.")
         | None =>
             called Call_rsaDecrypt;;
             match rsaDecrypt encryptedMpin with
             | Throw _ => ret (InvalidInput "Invalid encrypted data")
             | Ret rawMpin =>
                 if negb (Js.test_mpin_format rawMpin)
                 then ret (InvalidInput "MPIN must be exactly 4 or 6 digits")
                 else
                   let salt := generateSalt in
                   let mpinHash := sha512Hash rawMpin salt in
                   newUser <-
                     User.create rt
                       {| UserDoc._id := newObjectId rt;
                          UserDoc.phone := sanitizedPhone;
                          UserDoc.name := "SmartBank User";
                          UserDoc.mpinHash := mpinHash;
                          UserDoc.mpinSalt := salt;
                          UserDoc.devices :=
                            match present fingerprint with
                            | Some fp =>
                                [{| Device.fingerprint := fp;
                                    Device.userAgent :=
                                      Js.or_default (header_user_agent req) "";
                                    Device.lastUsed := now rt;
                                    Device.trusted := true |}]
                            | None => []
                            end;
                          UserDoc.failedAttempts := 0;
                          UserDoc.lockedUntil := None;
                          UserDoc.createdAt := now rt;
                          UserDoc.lastLogin := None;
                          UserDoc.__v := 0 |};;
                   called Call_generateToken;;
                   let token := generateToken (UserDoc._id newUser) sanitizedPhone in
                   logLoginAttempt rt
                     {| log_phone := sanitizedPhone;
                        log_ip := req_ip req;
                        log_fingerprint := Some (Js.or_default fingerprint "unknown");
                        log_userAgent := Some (Js.or_default (header_user_agent req) "");
                        log_success := true;
                        log_reason := Some "success";
                        log_riskScore := Some 0 |};;
                   ret (Registered token (UserDoc.toJSON newUser))
             end
         end
     | _, _ => ret (InvalidInput "Phone and encrypted MPIN are required")
     end)
    (λ _, ret (ServerError "Server error during registration")).

(** [user.devices.find(d => d.fingerprint === fingerprint)] followed by
    [knownDevice.lastUsed = new Date()]: the first device with that
    fingerprint is touched. *)
Fixpoint touch_device (fp : string) (ds : list Device.t) : option (list Device.t) :=
  match ds with
  | [] => None
  | d :: r =>
      if String.eqb (Device.fingerprint d) fp then
        Some ({| Device.fingerprint := Device.fingerprint d;
                 Device.userAgent := Device.userAgent d;
                 Device.lastUsed := now rt;
                 Device.trusted := Device.trusted d |} :: r)
      else option_map (cons d) (touch_device fp r)
  end.

(** [POST /api/auth/login] *)
Definition login (req : Request) : Handler Response :=
  try_catch
    (match present (body_phone req), present (body_encryptedMpin req) with
     | Some phone, Some encryptedMpin =>
         let fingerprint := body_fingerprint req in
         let sanitizedPhone := Js.replace_non_digits phone in
         found <- User.findOne rt sanitizedPhone;;
         match found with
         | None => ret (NotFound "User not found. Please register first.")
         | Some user =>
             called Call_isLocked;;
             if User.isLocked rt user then
               let unlockTime :=
                 toLocaleTimeString (default 0 (UserDoc.lockedUntil user)) in
               logLoginAttempt rt
                 {| log_phone := sanitizedPhone;
                    log_ip := req_ip req;
                    log_fingerprint := Some (Js.or_default fingerprint "unknown");
                    log_userAgent := None;
                    log_success := false;
                    log_reason := Some "account_locked";
                    log_riskScore := None |};;
               ret (AccountLocked
                      ("Account locked due to too many failed attempts. Try again after "
                         +:+ unlockTime +:+ ".")
                      (UserDoc.lockedUntil user))
             else
               riskAssessment <-
                 calculateRiskScore rt sanitizedPhone (req_ip req)
                   (Js.or_default fingerprint "unknown");;
               match action riskAssessment with
               | Block =>
                   logLoginAttempt rt
                     {| log_phone := sanitizedPhone;
                        log_ip := req_ip req;
                        log_fingerprint := Some (Js.or_default fingerprint "unknown");
                        log_userAgent := None;
                        log_success := false;
                        log_reason := Some "fraud_detected";
                        log_riskScore := Some (score riskAssessment) |};;
                   ret (RiskBlocked
                          "Suspicious activity detected. Please verify via OTP again."
                          (flags riskAssessment))
               | _ =>
                   called Call_rsaDecrypt;;
                   match rsaDecrypt encryptedMpin with
                   | Throw _ => ret (InvalidInput "Invalid encrypted data")
                   | Ret rawMpin =>
                       called Call_verifyMpin;;
                       isValid <-
                         lift (verifyMpin rawMpin (UserDoc.mpinHash user)
                                          (UserDoc.mpinSalt user));;
                       if negb isValid then
                         user <- User.incrementFailedAttempts rt user;;
                         let remaining := 5 - UserDoc.failedAttempts user in
                         logLoginAttempt rt
                           {| log_phone := sanitizedPhone;
                              log_ip := req_ip req;
                              log_fingerprint :=
                                Some (Js.or_default fingerprint "unknown");
                              log_userAgent := None;
                              log_success := false;
                              log_reason := Some "wrong_mpin";
                              log_riskScore := Some (score riskAssessment) |};;
                         ret (WrongCredential
                                ("Incorrect MPIN. "
                                   +:+ (if 0 <? remaining
                                        then pretty remaining +:+ " attempts remaining."
                                        else "Account has been locked for 30 minutes."))
                                remaining)
                       else
                         user <- User.resetFailedAttempts rt user;;
                         user <-
                           match present fingerprint with
                           | Some fp =>
                               let user :=
                                 match touch_device fp (UserDoc.devices user) with
                                 | None =>
                                     User.set_devices user
                                       (UserDoc.devices user
                                          ++ [{| Device.fingerprint := fp;
                                                 Device.userAgent :=
                                                   Js.or_default (header_user_agent req) "";
                                                 Device.lastUsed := now rt;
                                                 Device.trusted := true |}])
                                 | Some ds => User.set_devices user ds
                                 end in
                               User.save rt user;; ret user
                           | None => ret user
                           end;;
                         called Call_generateToken;;
                         let token := generateToken (UserDoc._id user) sanitizedPhone in
                         logLoginAttempt rt
                           {| log_phone := sanitizedPhone;
                              log_ip := req_ip req;
                              log_fingerprint :=
                                Some (Js.or_default fingerprint "unknown");
                              log_userAgent := None;
                              log_success := true;
                              log_reason := Some "success";
                              log_riskScore := Some (score riskAssessment) |};;
                         ret (LoggedIn token (UserDoc.toJSON user)
                                       (score riskAssessment)
                                       (flags riskAssessment))
                   end
               end
         end
     | _, _ => ret (InvalidInput "Phone and encrypted MPIN are required")
     end)
    (λ _, ret (ServerError "Server error during login")).

End Routes.

(** ** A concrete platform and concrete requests, for evaluation *)

Module Demo.

(** A stand-in digest of the right length: the first 64 bytes of the
    input, padded with zeros.  It is only used to run the handlers on
    concrete requests. *)
Definition digest (s : string) : list byte :=
  take 64 (map byte_of_ascii (list_ascii_of_string s) ++ repeat x00 64).

Definition digest_length (s : string) : length (digest s) = 64%nat.
Proof.
  unfold digest. rewrite length_take, length_app, repeat_length. lia.
Qed.

(** A stand-in decryptor: a ciphertext is the plaintext behind the
    four characters [enc:]; anything else fails to decrypt. *)
Definition decrypt (c : string) : option string :=
  if String.prefix "enc:" c then Some (String.substring 4 (String.length c - 4) c)
  else None.

#[global] Instance platform : Platform := {|
  sha512 := digest;
  sha512_length := digest_length;
  privateDecrypt := decrypt;
  jwt_sign := λ userId phone iat, "jwt." +:+ userId +:+ "." +:+ phone;
  toLocaleTimeString := λ t, pretty t;
|}.

(** Noon UTC on 1 January 2025, with the given collections unreachable. *)
Definition runtime (usersDown ledgerFindDown ledgerCreateDown : bool) : Runtime :=
  {| now := 1735732800000; tzOffset := 0;
     usersDown := usersDown; ledgerFindDown := ledgerFindDown;
     ledgerCreateDown := ledgerCreateDown;
     randomBytes32 := repeat x2a 32; newObjectId := "u2" |}.

(** Every collection reachable. *)
Definition rt : Runtime := runtime false false false.

Definition salt : string := "73616c74".

(** A registered user whose PIN is 1234. *)
Definition alice (failures : Z) (locked : option Z) : UserDoc.t :=
  {| UserDoc._id := "u1"; UserDoc.phone := "9876543210";
     UserDoc.name := "SmartBank User";
     UserDoc.mpinHash := sha512Hash "1234" salt; UserDoc.mpinSalt := salt;
     UserDoc.devices := []; UserDoc.failedAttempts := failures;
     UserDoc.lockedUntil := locked; UserDoc.createdAt := 1700000000000;
     UserDoc.lastLogin := None; UserDoc.__v := 0 |}.

Definition mem (failures : Z) (locked : option Z) : Mem :=
  {| users := {["9876543210" := alice failures locked]};
     attempts := []; calls := [] |}.

Definition request (phone encryptedMpin : string) : Request :=
  {| body_phone := Some phone; body_encryptedMpin := Some encryptedMpin;
     body_fingerprint := Some "fp-1"; body_firebaseToken := None;
     body_demoMode := true; req_ip := "10.0.0.1";
     header_user_agent := Some "Mozilla/5.0" |}.

End Demo.

(** ** Vocabulary of the properties *)

(** The state after one more call has been made. *)
Definition after_call (m : Mem) (c : Call) : Mem :=
  {| users := users m; attempts := attempts m; calls := calls m ++ [c] |}.

(** The ledger takes a document when the collection is reachable and the
    document passes the schema. *)
Definition ledger_accepts (rt : Runtime) (doc : LoginAttempt.t) : bool :=
  negb (ledgerCreateDown rt) && LoginAttempt.validate doc.

(** The rows of the ledger after [logLoginAttempt rt data]. *)
Definition recorded (rt : Runtime) (data : LogData)
    (rows : list LoginAttempt.t) : list LoginAttempt.t :=
  if ledger_accepts rt (attempt_of rt data) then rows ++ [attempt_of rt data]
  else rows.

(** The 30-day, 50-row history [calculateRiskScore] reads. *)
Definition history (rt : Runtime) (phone : string) (m : Mem) : list LoginAttempt.t :=
  Ledger.query phone (now rt - 30 * 24 * 60 * 60 * 1000) 50 (attempts m).

(** The assessment the login route gets from the scorer for a request. *)
Definition login_risk (rt : Runtime) (req : Request) (sanitizedPhone : string)
    (m : Mem) : RiskAssessment :=
  if ledgerFindDown rt then detection_error
  else assess rt (history rt sanitizedPhone m) (req_ip req)
         (Js.or_default (body_fingerprint req) "unknown").

(** The [logLoginAttempt] calls among a sequence of calls. *)
Definition log_calls (cs : list Call) : list LogData :=
  flat_map (λ c, match c with Call_logLoginAttempt d => [d] | _ => [] end) cs.


(** The reason code that goes with a verdict of the login route, for the
    four verdicts that carry one. *)
Definition verdict_reason (r : Response) : option string :=
  match r with
  | LoggedIn _ _ _ _ => Some "success"
  | AccountLocked _ _ => Some "account_locked"
  | RiskBlocked _ _ => Some "fraud_detected"
  | WrongCredential _ _ => Some "wrong_mpin"
  | _ => None
  end.

(** The user object of a successful answer. *)
Definition response_user (r : Response) : option (gmap string JsValue) :=
  match r with
  | Registered _ user => Some user
  | LoggedIn _ user _ _ => Some user
  | _ => None
  end.



(** ** Vocabulary of the further properties *)

(** The failures of several attempts, each recorded at its own time. *)
Definition failures_recorded (rts : list Runtime) (this : UserDoc.t) : UserDoc.t :=
  fold_left (λ u rt, User.failure_recorded rt u) rts this.

(** The points [calculateRiskScore] adds with each flag it pushes (the
    fallback answer carries 10 with [detection_error]). *)
Definition flag_points (flag : string) : Z :=
  if String.eqb flag "first_login" then 5
  else if String.eqb flag "new_ip" then 20
  else if String.eqb flag "new_device" then 25
  else if String.eqb flag "rapid_attempts" then 30
  else if String.eqb flag "high_failure_rate" then 15
  else if String.eqb flag "unusual_hour" then 10
  else if String.eqb flag "detection_error" then 10
  else 0.

Definition total_points (flags : list string) : Z :=
  foldr (λ flag acc, flag_points flag + acc) 0 flags.

(** The IPs and the fingerprints of the successful attempts of a history. *)
Definition successful_ips (rows : list LoginAttempt.t) : list string :=
  map LoginAttempt.ip (List.filter LoginAttempt.success rows).

Definition successful_fingerprints (rows : list LoginAttempt.t) : list string :=
  map LoginAttempt.fingerprint (List.filter LoginAttempt.success rows).

(** The attempts of a history made in the last five minutes. *)
Definition rapid_rows (rt : Runtime) (rows : list LoginAttempt.t)
  : list LoginAttempt.t :=
  List.filter (λ a, now rt - 5 * 60 * 1000 <=? LoginAttempt.timestamp a) rows.

(** The five tests of [assess], on the history itself. *)
Definition sees_new_ip (rows : list LoginAttempt.t) (currentIp : string) : bool :=
  negb (bool_decide (successful_ips rows = []))
  && negb (bool_decide (currentIp ∈ successful_ips rows)).

Definition sees_new_device (rows : list LoginAttempt.t) (fingerprint : string) : bool :=
  negb (bool_decide (successful_fingerprints rows = []))
  && negb (bool_decide (fingerprint ∈ successful_fingerprints rows)).

Definition sees_rapid_attempts (rt : Runtime) (rows : list LoginAttempt.t) : bool :=
  (3 <? length (rapid_rows rt rows))%nat.

Definition sees_high_failure_rate (rows : list LoginAttempt.t) : bool :=
  Z.max (Z.of_nat (length rows)) 1
  <? 2 * Z.of_nat (length (List.filter (λ a, negb (LoginAttempt.success a)) rows)).

Definition sees_unusual_hour (rt : Runtime) : bool :=
  (2 <=? getHours rt) && (getHours rt <=? 5).


(** Sample ledger rows and states, for evaluation. *)
Module Sample.

Definition attempt (ip fingerprint : string) (success : bool) (timestamp : Z)
  : LoginAttempt.t :=
  {| LoginAttempt.phone := "9876543210"; LoginAttempt.ip := ip;
     LoginAttempt.fingerprint := fingerprint; LoginAttempt.userAgent := "";
     LoginAttempt.success := success;
     LoginAttempt.reason := if success then "success" else "wrong_mpin";
     LoginAttempt.riskScore := 0; LoginAttempt.timestamp := timestamp |}.

(** The user of [Demo.mem] with the given ledger. *)
Definition mem (rows : list LoginAttempt.t) : Mem :=
  {| users := users (Demo.mem 0 None); attempts := rows; calls := [] |}.

(** One successful login a day before [Demo.rt], then four attempts in
    the last four minutes, the first of them successful. *)
Definition busy_rows : list LoginAttempt.t :=
  [attempt "10.0.0.1" "fp-1" true (now Demo.rt - 86400000);
   attempt "10.0.0.1" "fp-1" true (now Demo.rt - 240000);
   attempt "10.0.0.1" "fp-1" false (now Demo.rt - 180000);
   attempt "10.0.0.1" "fp-1" false (now Demo.rt - 120000);
   attempt "10.0.0.1" "fp-1" false (now Demo.rt - 60000)].

(** A request from the given IP and device for the user of [Demo.mem]. *)
Definition request (ip fingerprint encryptedMpin : string) : Request :=
  {| body_phone := Some "9876543210"; body_encryptedMpin := Some encryptedMpin;
     body_fingerprint := Some fingerprint; body_firebaseToken := None;
     body_demoMode := true; req_ip := ip;
     header_user_agent := Some "Mozilla/5.0" |}.

(** Three failed attempts and nothing else. *)
Definition failed_rows : list LoginAttempt.t :=
  [attempt "10.0.0.9" "fp-9" false (now Demo.rt - 180000);
   attempt "10.0.0.9" "fp-9" false (now Demo.rt - 120000);
   attempt "10.0.0.9" "fp-9" false (now Demo.rt - 60000)].

End Sample.

(** The device a successful login or a registration binds to a new
    fingerprint. *)
Definition new_device (rt : Runtime) (req : Request) (fp : string) : Device.t :=
  {| Device.fingerprint := fp;
     Device.userAgent := Js.or_default (header_user_agent req) "";
     Device.lastUsed := now rt;
     Device.trusted := true |}.

(** The device list a successful login saves. *)
Definition bound_devices (rt : Runtime) (req : Request) (ds : list Device.t)
  : list Device.t :=
  match present (body_fingerprint req) with
  | None => ds
  | Some fp =>
      match touch_device rt fp ds with
      | Some touched => touched
      | None => ds ++ [new_device rt req fp]
      end
  end.

(** What the login route logs for a successful login and for a blocked
    one. *)
Definition success_data (req : Request) (sanitizedPhone : string)
    (risk : RiskAssessment) : LogData :=
  {| log_phone := sanitizedPhone;
     log_ip := req_ip req;
     log_fingerprint := Some (Js.or_default (body_fingerprint req) "unknown");
     log_userAgent := None;
     log_success := true;
     log_reason := Some "success";
     log_riskScore := Some (score risk) |}.

Definition blocked_data (req : Request) (sanitizedPhone : string)
    (risk : RiskAssessment) : LogData :=
  {| log_phone := sanitizedPhone;
     log_ip := req_ip req;
     log_fingerprint := Some (Js.or_default (body_fingerprint req) "unknown");
     log_userAgent := None;
     log_success := false;
     log_reason := Some "fraud_detected";
     log_riskScore := Some (score risk) |}.

(** Every stored user sits under its own phone (the unique index). *)
Definition keyed_by_phone (us : gmap string UserDoc.t) : Prop :=
  ∀ k u, us !! k = Some u → UserDoc.phone u = k.

(** Two documents of the same identity with the same credential. *)
Definition same_credentials (u u' : UserDoc.t) : Prop :=
  UserDoc._id u' = UserDoc._id u
  ∧ UserDoc.phone u' = UserDoc.phone u
  ∧ UserDoc.mpinHash u' = UserDoc.mpinHash u
  ∧ UserDoc.mpinSalt u' = UserDoc.mpinSalt u
  ∧ UserDoc.createdAt u' = UserDoc.createdAt u.

(** What the register route logs. *)
Definition registered_data (req : Request) (sanitizedPhone : string) : LogData :=
  {| log_phone := sanitizedPhone;
     log_ip := req_ip req;
     log_fingerprint := Some (Js.or_default (body_fingerprint req) "unknown");
     log_userAgent := Some (Js.or_default (header_user_agent req) "");
     log_success := true;
     log_reason := Some "success";
     log_riskScore := Some 0 |}.


(** ** Strings: lower case, trimming, substrings *)

Module JsString.

(** [s.toLowerCase()] on ASCII letters; other characters are kept. *)
Definition lower_char (c : ascii) : ascii :=
  let n := N_of_ascii c in
  if ((65 <=? n) && (n <=? 90))%N then ascii_of_N (n + 32) else c.

Fixpoint toLowerCase (s : string) : string :=
  match s with
  | EmptyString => EmptyString
  | String c r => String (lower_char c) (toLowerCase r)
  end.

(** The ASCII white space that [trim] removes: tab, line feed, vertical
    tab, form feed, carriage return and space. *)
Definition is_space (c : ascii) : bool :=
  let n := N_of_ascii c in
  (((9 <=? n) && (n <=? 13)) || (n =? 32))%N.

Fixpoint trimStart (s : string) : string :=
  match s with
  | EmptyString => EmptyString
  | String c r => if is_space c then trimStart r else s
  end.

Fixpoint trimEnd (s : string) : string :=
  match s with
  | EmptyString => EmptyString
  | String c r =>
      match trimEnd r with
      | EmptyString => if is_space c then EmptyString else String c EmptyString
      | kept => String c kept
      end
  end.

(** [s.trim()] *)
Definition trim (s : string) : string := trimEnd (trimStart s).

(** [s.startsWith(p)] *)
Fixpoint startsWith (s p : string) : bool :=
  match p, s with
  | EmptyString, _ => true
  | String a p', String b s' => Ascii.eqb a b && startsWith s' p'
  | String _ _, EmptyString => false
  end.

(** [s.includes(sub)] *)
Fixpoint includes (s sub : string) : bool :=
  startsWith s sub
  || match s with
     | EmptyString => false
     | String _ r => includes r sub
     end.

(** [s.substring(n)] *)
Fixpoint substring_from (n : nat) (s : string) : string :=
  match n, s with
  | O, _ => s
  | S n', String _ r => substring_from n' r
  | S _, EmptyString => EmptyString
  end.

End JsString.

(** [String.prototype.toLowerCase] and [String.prototype.trim] follow the
    Unicode tables of the engine; the code that uses them is modelled
    over any such pair. *)
Class Text := {
  toLowerCase : string → string;
  trim : string → string;
}.

(** The two on ASCII text, for evaluation. *)
Definition ascii_text : Text :=
  {| toLowerCase := JsString.toLowerCase; trim := JsString.trim |}.

(** ** The categoriser (first part of [server/utils/categorizer.js]) *)

Module Categorizer.

Definition CATEGORY_MAP : list (string * list string) :=
  [("food",
    ["swiggy"; "zomato"; "dominos"; "pizza"; "mcdonald"; "burger";
     "kfc"; "restaurant"; "cafe"; "coffee"; "starbucks"; "uber eats";
     "food"; "dining"; "biryani"; "hotel"; "bakery"; "subway"; "dunkin"]);
   ("shopping",
    ["amazon"; "flipkart"; "myntra"; "ajio"; "meesho"; "snapdeal";
     "mall"; "store"; "mart"; "bazaar"; "reliance"; "dmart";
     "big basket"; "bigbasket"; "grofers"; "blinkit"; "zepto";
     "jiomart"; "shopping"]);
   ("fuel",
    ["petrol"; "diesel"; "hp"; "indian oil"; "iocl"; "bpcl"; "shell";
     "fuel"; "gas station"; "hindustan petroleum"; "bharat petroleum";
     "ev charging"; "cng"]);
   ("entertainment",
    ["netflix"; "spotify"; "amazon prime"; "hotstar"; "disney";
     "youtube"; "cinema"; "movie"; "pvr"; "inox"; "game"; "playstation";
     "xbox"; "music"; "concert"; "theatre"; "jio cinema"; "zee5"]);
   ("recharge",
    ["airtel"; "jio"; "vi"; "vodafone"; "idea"; "bsnl"; "mtnl";
     "recharge"; "prepaid"; "postpaid"; "mobile plan"; "data pack"]);
   ("housing",
    ["rent"; "house"; "apartment"; "flat"; "society"; "maintenance";
     "property"; "emi"; "home loan"; "mortgage"; "housing"]);
   ("bills",
    ["electricity"; "water"; "gas bill"; "broadband"; "internet";
     "wifi"; "eb bill"; "tneb"; "bescom"; "tata power"; "adani";
     "utility"; "municipal"; "sewage"]);
   ("salary",
    ["salary"; "payroll"; "wages"; "income"; "stipend"; "freelance";
     "commission"; "bonus"; "incentive"; "payout"]);
   ("transfer",
    ["transfer"; "upi"; "neft"; "rtgs"; "imps"; "send money";
     "payment to"; "paid to"; "received from"]);
   ("investment",
    ["mutual fund"; "sip"; "stocks"; "shares"; "demat"; "zerodha";
     "groww"; "upstox"; "coin"; "fd"; "fixed deposit"; "ppf"; "nps";
     "gold"; "silver"; "crypto"; "bitcoin"; "ethereum"]);
   ("medical",
    ["hospital"; "medical"; "pharmacy"; "medicine"; "doctor"; "clinic";
     "health"; "apollo"; "medplus"; "netmeds"; "lab test"; "diagnostic"]);
   ("travel",
    ["uber"; "ola"; "rapido"; "flight"; "train"; "irctc"; "bus";
     "makemytrip"; "goibibo"; "hotel booking"; "ticket"; "metro"; "cab";
     "taxi"; "indigo"; "air india"; "spicejet"; "vistara"]);
   ("education",
    ["school"; "college"; "university"; "tuition"; "course"; "udemy";
     "coursera"; "books"; "stationery"; "exam"; "coaching"; "fee"])].

(** The answer of [categorize]; [confidence] is in hundredths (0.85 is
    85). *)
Record Result := {
  category : string;
  confidence : Z;
  aiCategorized : bool;
  matchedKeyword : option string;
}.

Definition other : Result :=
  {| category := "other"; confidence := 0; aiCategorized := false;
     matchedKeyword := None |}.

(** The inner loop: the first keyword of the list that the text includes. *)
Fixpoint find_keyword (lower : string) (keywords : list string) : option string :=
  match keywords with
  | [] => None
  | keyword :: rest =>
      if JsString.includes lower keyword then Some keyword
      else find_keyword lower rest
  end.

(** The outer loop over [Object.entries(CATEGORY_MAP)], in the order the
    keys are written. *)
Fixpoint find_category (lower : string) (entries : list (string * list string))
  : option (string * string) :=
  match entries with
  | [] => None
  | (category, keywords) :: rest =>
      match find_keyword lower keywords with
      | Some keyword => Some (category, keyword)
      | None => find_category lower rest
      end
  end.

Section Categorize.
Context `{Text}.

Definition categorize (description : option string) : Result :=
  match present description with
  | None => other
  | Some description =>
      let lower := trim (toLowerCase description) in
      match find_category lower CATEGORY_MAP with
      | Some (category, keyword) =>
          {| category := category; confidence := 85; aiCategorized := true;
             matchedKeyword := Some keyword |}
      | None => other
      end
  end.

End Categorize.

Record CategoryInfo := { label : string; icon : string; color : string }.

Definition getCategories : list (string * CategoryInfo) :=
  [("food", {| label := "Food & Dining"; icon := "🍕"; color := "#f59e0b" |});
   ("shopping", {| label := "Shopping"; icon := "🛒"; color := "#8b5cf6" |});
   ("fuel", {| label := "Fuel"; icon := "⛽"; color := "#ef4444" |});
   ("entertainment", {| label := "Entertainment"; icon := "🎬"; color := "#ec4899" |});
   ("recharge", {| label := "Recharge"; icon := "📱"; color := "#06b6d4" |});
   ("housing", {| label := "Housing & Rent"; icon := "🏠"; color := "#14b8a6" |});
   ("bills", {| label := "Bills & Utilities"; icon := "💡"; color := "#f97316" |});
   ("salary", {| label := "Salary & Income"; icon := "💰"; color := "#22c55e" |});
   ("transfer", {| label := "Transfers"; icon := "🔄"; color := "#3b82f6" |});
   ("investment", {| label := "Investments"; icon := "📈"; color := "#10b981" |});
   ("medical", {| label := "Medical"; icon := "🏥"; color := "#ef4444" |});
   ("travel", {| label := "Travel"; icon := "✈️"; color := "#6366f1" |});
   ("education", {| label := "Education"; icon := "📚"; color := "#a855f7" |});
   ("other", {| label := "Other"; icon := "📦"; color := "#64748b" |})].

(** All the keywords, in the order the loops visit them. *)
Definition all_keywords : list string := flat_map snd CATEGORY_MAP.

(** The keywords visited before the first visit of [keyword]. *)
Fixpoint visited_before (keyword : string) (keywords : list string) : list string :=
  match keywords with
  | [] => []
  | k :: rest => if String.eqb k keyword then [] else k :: visited_before keyword rest
  end.

(** A keyword that contains a keyword visited before it. *)
Definition shadowed (keyword : string) : bool :=
  existsb (JsString.includes keyword) (visited_before keyword all_keywords).

End Categorizer.

(** ** The authentication middleware and the token helpers *)

(** [jsonwebtoken]'s [jwt.verify(token, JWT_SECRET, {issuer, audience})]:
    the decoded payload, or [None] when it throws. *)
Class TokenVerifier := {
  Claims : Type;
  jwt_verify : string → option Claims;
}.

Record AuthRequest := {
  header_authorization : option string;   (* [req.headers.authorization] *)
  cookie_smartbank_token : option string; (* [req.cookies.smartbank_token] *)
}.

Inductive AuthOutcome `{TokenVerifier} : Type :=
| Unauthorized (message : string)           (* 401 *)
| Next (user : Claims).                     (* [req.user = decoded; next()] *)

Section Auth.
Context `{TokenVerifier}.

(** [verifyToken]: [null] instead of an exception. *)
Definition verifyToken (token : string) : option Claims := jwt_verify token.

(** The token the middleware picks: the rest of a header that starts with
    "Bearer ", else the cookie. *)
Definition bearer_or_cookie (req : AuthRequest) : option string :=
  match present (header_authorization req) with
  | Some authHeader =>
      if JsString.startsWith authHeader "Bearer "
      then Some (JsString.substring_from 7 authHeader)
      else present (cookie_smartbank_token req)
  | None => present (cookie_smartbank_token req)
  end.

Definition authMiddleware (req : AuthRequest) : AuthOutcome :=
  match present (bearer_or_cookie req) with
  | None => Unauthorized "Authentication required. Please login."
  | Some token =>
      match verifyToken token with
      | None => Unauthorized "Invalid or expired token. Please login again."
      | Some decoded => Next decoded
      end
  end.

End Auth.

(** ** The key of the rate limiter on the auth routes *)

(** [keyGenerator] of [authLimiter]: the IP, and the phone as it was sent
    when there is one. *)
Definition keyGenerator (req : Request) : string :=
  match present (body_phone req) with
  | Some phone => req_ip req +:+ "_" +:+ phone
  | None => req_ip req
  end.

(** The same request with another spelling of the phone. *)
Definition with_phone (req : Request) (phone : string) : Request :=
  {| body_phone := Some phone;
     body_encryptedMpin := body_encryptedMpin req;
     body_fingerprint := body_fingerprint req;
     body_firebaseToken := body_firebaseToken req;
     body_demoMode := body_demoMode req;
     req_ip := req_ip req;
     header_user_agent := header_user_agent req |}.

(** A stand-in token verifier, for evaluation: the claims of a token are
    what follows the four characters [jwt.]; anything else is invalid. *)
Module SampleTokens.

#[global] Instance verifier : TokenVerifier := {|
  Claims := string;
  jwt_verify := λ token,
    if JsString.startsWith token "jwt."
    then Some (JsString.substring_from 4 token) else None;
|}.

End SampleTokens.

(** * Properties *)

(** ** Facts about the hexadecimal encoding and the comparison *)

Lemma from_hex_byte (b : byte) (s : string) :
  Buffer.from_hex (Buffer.byte_to_hex b +:+ s) = b :: Buffer.from_hex s.
Proof. destruct b; reflexivity. Qed.

Lemma from_hex_to_hex (bs : list byte) : Buffer.from_hex (Buffer.to_hex bs) = bs.
Proof.
  induction bs as [|b bs IH]; [reflexivity|].
  cbn [Buffer.to_hex]. rewrite from_hex_byte. by rewrite IH.
Qed.

Lemma to_hex_length (bs : list byte) :
  String.length (Buffer.to_hex bs) = (2 * length bs)%nat.
Proof.
  induction bs as [|b bs IH]; [reflexivity|].
  cbn [Buffer.to_hex length]. unfold Buffer.byte_to_hex.
  change (String.length (String ?a (String ?b EmptyString) +:+ ?r))
    with (S (S (String.length r))).
  rewrite IH. lia.
Qed.

Lemma timing_fold_same (a : list byte) (acc : N) :
  fold_left (λ acc p, N.lor acc (N.lxor (Byte.to_N p.1) (Byte.to_N p.2)))
            (combine a a) acc = acc.
Proof.
  revert acc. induction a as [|x a IH]; intros acc; [reflexivity|].
  cbn [combine fold_left fst snd]. rewrite N.lxor_nilpotent, N.lor_0_r. apply IH.
Qed.

Lemma timingSafeEqual_refl (a : list byte) : timingSafeEqual a a = Ret true.
Proof.
  unfold timingSafeEqual. rewrite Nat.eqb_refl. cbn [negb].
  by rewrite timing_fold_same.
Qed.

Section CryptoFacts.
Context `{Platform}.

Lemma sha512Hash_length (mpin salt : string) :
  String.length (sha512Hash mpin salt) = 128%nat.
Proof. unfold sha512Hash. rewrite to_hex_length, sha512_length. reflexivity. Qed.

Lemma sha512Hash_decodes (mpin salt : string) :
  Buffer.from_hex (sha512Hash mpin salt) = sha512 (salt +:+ mpin).
Proof. apply from_hex_to_hex. Qed.

(** C8.  For every PIN string and every salt string, verifying the PIN
    against its own digest succeeds: the digest is the hexadecimal form of
    SHA-512 over [salt +:+ pin], 128 characters for 512 bits, and
    [verifyMpin pin (sha512Hash pin salt) salt] returns [true] without
    throwing. *)
Theorem verifyMpin_sha512Hash (pin salt : string) :
  sha512Hash pin salt = Buffer.to_hex (sha512 (salt +:+ pin))
  ∧ String.length (sha512Hash pin salt) = 128%nat
  ∧ verifyMpin pin (sha512Hash pin salt) salt = Ret true.
Proof.
  split; [reflexivity|]. split; [apply sha512Hash_length|].
  unfold verifyMpin. apply timingSafeEqual_refl.
Qed.

End CryptoFacts.

Lemma to_N_inj (x y : byte) : Byte.to_N x = Byte.to_N y → x = y.
Proof.
  intros Hxy. assert (Some x = Some y) as [= ->]; [|done].
  by rewrite <- (Byte.of_to_N x), <- (Byte.of_to_N y), Hxy.
Qed.

Lemma timing_fold_zero (a b : list byte) (acc : N) :
  length a = length b →
  fold_left (λ acc p, N.lor acc (N.lxor (Byte.to_N p.1) (Byte.to_N p.2)))
            (combine a b) acc = 0%N
  ↔ acc = 0%N ∧ a = b.
Proof.
  revert b acc. induction a as [|x a IH]; intros [|y b] acc Hlen;
    try discriminate; cbn [combine fold_left fst snd].
  - split; [by intros ->|by intros [-> _]].
  - injection Hlen as Hlen. rewrite (IH b _ Hlen), N.lor_eq_0_iff, N.lxor_eq_0_iff.
    split.
    + intros [[-> Hxy%to_N_inj] ->]. by rewrite Hxy.
    + intros [-> [= -> ->]]. done.
Qed.

(** On buffers of one length the comparison decides equality. *)
Lemma timingSafeEqual_decides (a b : list byte) :
  length a = length b →
  timingSafeEqual a b = Ret (bool_decide (a = b)).
Proof.
  intros Hlen. unfold timingSafeEqual.
  rewrite Hlen, Nat.eqb_refl. cbn [negb]. f_equal.
  destruct (N.eqb_spec
              (fold_left (λ acc p, N.lor acc (N.lxor (Byte.to_N p.1) (Byte.to_N p.2)))
                         (combine a b) 0%N) 0%N) as [Hz|Hnz].
  - apply (timing_fold_zero a b 0%N Hlen) in Hz as [_ ->].
    by rewrite bool_decide_eq_true_2.
  - rewrite bool_decide_eq_false_2; [done|].
    intros ->. apply Hnz. by apply timing_fold_zero.
Qed.

Section MoreCryptoFacts.
Context `{Platform}.

(** Against a stored digest made by [sha512Hash], verification never
    throws and succeeds exactly when the two digests are the same. *)
Lemma verifyMpin_decides (inputMpin storedMpin salt storedSalt : string) :
  verifyMpin inputMpin (sha512Hash storedMpin storedSalt) salt =
    Ret (bool_decide (sha512 (salt +:+ inputMpin)
                      = sha512 (storedSalt +:+ storedMpin))).
Proof.
  unfold verifyMpin. rewrite !sha512Hash_decodes.
  apply timingSafeEqual_decides. by rewrite !sha512_length.
Qed.

End MoreCryptoFacts.

(** ** What one call does to the state *)

Lemma findOne_run rt phone m :
  User.findOne rt phone m =
    (if usersDown rt then Throw "users collection unavailable"
     else Ret (users m !! phone),
     after_call m (Call_User_findOne phone)).
Proof. unfold User.findOne, bind, called, get, ret, throw. by destruct (usersDown rt). Qed.

Lemma save_run rt this m :
  User.save rt this m =
    if usersDown rt
    then (Throw "users collection unavailable", after_call m Call_User_save)
    else (Ret tt, {| users := <[UserDoc.phone this := this]> (users m);
                     attempts := attempts m;
                     calls := calls m ++ [Call_User_save] |}).
Proof.
  unfold User.save, bind, called, get, put_users, throw.
  by destruct (usersDown rt).
Qed.

Lemma logLoginAttempt_run rt data m :
  logLoginAttempt rt data m =
    (Ret tt, {| users := users m;
                attempts := recorded rt data (attempts m);
                calls := calls m ++ [Call_logLoginAttempt data] |}).
Proof.
  unfold logLoginAttempt, Ledger.create, recorded, ledger_accepts,
    bind, try_catch, called, get, put_attempts, ret, throw.
  destruct (ledgerCreateDown rt); [done|].
  by destruct (LoginAttempt.validate _).
Qed.

Lemma calculateRiskScore_run rt phone ip fp m :
  calculateRiskScore rt phone ip fp m =
    (Ret (if ledgerFindDown rt then detection_error
          else assess rt (history rt phone m) ip fp),
     after_call m (Call_calculateRiskScore phone ip fp)).
Proof.
  unfold calculateRiskScore, Ledger.find, history,
    bind, try_catch, called, get, ret, throw.
  by destruct (ledgerFindDown rt).
Qed.

Lemma incrementFailedAttempts_run rt this m :
  User.incrementFailedAttempts rt this m =
    if usersDown rt
    then (Throw "users collection unavailable",
          {| users := users m; attempts := attempts m;
             calls := calls m ++ [Call_incrementFailedAttempts; Call_User_save] |})
    else (Ret (User.failure_recorded rt this),
          {| users := <[UserDoc.phone this := User.failure_recorded rt this]> (users m);
             attempts := attempts m;
             calls := calls m ++ [Call_incrementFailedAttempts; Call_User_save] |}).
Proof.
  unfold User.incrementFailedAttempts, bind, called, ret. rewrite save_run.
  replace (UserDoc.phone (User.failure_recorded rt this)) with (UserDoc.phone this)
    by (unfold User.failure_recorded; by destruct (5 <=? _)).
  unfold after_call. cbn [users attempts calls]. rewrite <- !app_assoc.
  by destruct (usersDown rt).
Qed.

Lemma resetFailedAttempts_run rt this m :
  User.resetFailedAttempts rt this m =
    if usersDown rt
    then (Throw "users collection unavailable",
          {| users := users m; attempts := attempts m;
             calls := calls m ++ [Call_resetFailedAttempts; Call_User_save] |})
    else (Ret (User.success_recorded rt this),
          {| users := <[UserDoc.phone this := User.success_recorded rt this]> (users m);
             attempts := attempts m;
             calls := calls m ++ [Call_resetFailedAttempts; Call_User_save] |}).
Proof.
  unfold User.resetFailedAttempts, bind, called, ret. rewrite save_run.
  unfold after_call. cbn [users attempts calls UserDoc.phone User.success_recorded
    User.set_failures User.set_lockedUntil User.set_lastLogin].
  rewrite <- !app_assoc. by destruct (usersDown rt).
Qed.

Lemma create_run rt doc m :
  User.create rt doc m =
    if usersDown rt
    then (Throw "users collection unavailable", after_call m Call_User_create)
    else if negb (UserDoc.validate doc)
    then (Throw "User validation failed", after_call m Call_User_create)
    else match users m !! UserDoc.phone doc with
         | Some _ => (Throw "E11000 duplicate key error", after_call m Call_User_create)
         | None =>
             (Ret doc, {| users := <[UserDoc.phone doc := doc]> (users m);
                          attempts := attempts m;
                          calls := calls m ++ [Call_User_create] |})
         end.
Proof.
  unfold User.create, bind, called, get, put_users, ret, throw, after_call.
  destruct (usersDown rt); [done|].
  destruct (negb _); [done|]. cbn [users].
  by destruct (users m !! _).
Qed.

(** ** The lockout state machine *)

Lemma failure_recorded_keeps_identity rt this :
  UserDoc.phone (User.failure_recorded rt this) = UserDoc.phone this
  ∧ UserDoc.mpinHash (User.failure_recorded rt this) = UserDoc.mpinHash this
  ∧ UserDoc.mpinSalt (User.failure_recorded rt this) = UserDoc.mpinSalt this.
Proof. unfold User.failure_recorded. by destruct (5 <=? _). Qed.

(** C3.  [incrementFailedAttempts] is one update of the document, saved
    once.  When it raises the counter to the threshold of 5 the saved
    document has the counter back at 0 and the lock expiry at
    [now + 30 minutes]; below the threshold the counter is the old one
    plus one and the lock expiry is untouched.  So, for a counter that
    starts non-negative, the counter is reset exactly when the lock is
    set, and the lock expiry changes only together with the reset.  When
    the collection rejects the save, neither change is stored. *)
Theorem incrementFailedAttempts_locks_and_resets rt this m :
  let this' := User.failure_recorded rt this in
  User.incrementFailedAttempts rt this m =
    (if usersDown rt then Throw "users collection unavailable" else Ret this',
     {| users := if usersDown rt then users m
                 else <[UserDoc.phone this := this']> (users m);
        attempts := attempts m;
        calls := calls m ++ [Call_incrementFailedAttempts; Call_User_save] |})
  ∧ (5 ≤ UserDoc.failedAttempts this + 1 →
       UserDoc.failedAttempts this' = 0
       ∧ UserDoc.lockedUntil this' = Some (now rt + 30 * 60 * 1000))
  ∧ (UserDoc.failedAttempts this + 1 < 5 →
       UserDoc.failedAttempts this' = UserDoc.failedAttempts this + 1
       ∧ UserDoc.lockedUntil this' = UserDoc.lockedUntil this)
  ∧ (0 ≤ UserDoc.failedAttempts this →
       (UserDoc.failedAttempts this' = 0 ↔ 5 ≤ UserDoc.failedAttempts this + 1))
  ∧ (UserDoc.lockedUntil this' ≠ UserDoc.lockedUntil this →
       UserDoc.failedAttempts this' = 0
       ∧ UserDoc.lockedUntil this' = Some (now rt + 30 * 60 * 1000)).
Proof.
  intros this'. split.
  { rewrite incrementFailedAttempts_run. by destruct (usersDown rt). }
  subst this'. unfold User.failure_recorded.
  cbn [UserDoc.failedAttempts User.set_failures].
  destruct (5 <=? UserDoc.failedAttempts this + 1) eqn:Hth;
    [apply Z.leb_le in Hth | apply Z.leb_gt in Hth];
    cbn [UserDoc.failedAttempts UserDoc.lockedUntil User.set_failures
         User.set_lockedUntil].
  - repeat split; intros; try lia; done.
  - repeat split; intros; try lia; try done.
Qed.

Lemma incrementFailedAttempts_locks_and_resets_witness :
  UserDoc.failedAttempts (User.failure_recorded Demo.rt (Demo.alice 4 None)) = 0
  ∧ UserDoc.lockedUntil (User.failure_recorded Demo.rt (Demo.alice 4 None))
    = Some (1735732800000 + 30 * 60 * 1000).
Proof.
  destruct (incrementFailedAttempts_locks_and_resets
              Demo.rt (Demo.alice 4 None) (Demo.mem 4 None))
    as (_ & Hlock & _).
  apply Hlock. cbn. lia.
Defined.

(** ** The risk scorer *)

Lemma getHours_range rt : 0 ≤ getHours rt < 24.
Proof. unfold getHours. apply Z.mod_pos_bound. lia. Qed.

(** No row of the identity within the last 30 days: the scorer reads an
    empty history. *)
Lemma history_empty rt phone m :
  Forall (λ a, LoginAttempt.phone a ≠ phone
               ∨ LoginAttempt.timestamp a < now rt - 30 * 24 * 60 * 60 * 1000)
         (attempts m) →
  history rt phone m = [].
Proof.
  intros Hrows. unfold history, Ledger.query.
  replace (List.filter _ (attempts m)) with (@nil LoginAttempt.t); [done|].
  symmetry. induction Hrows as [|a rows Ha _ IH]; [done|].
  cbn [List.filter]. rewrite IH.
  destruct Ha as [Hph|Hts].
  - apply String.eqb_neq in Hph. by rewrite Hph.
  - apply Z.leb_gt in Hts. rewrite Hts. by rewrite andb_false_r.
Qed.

(** C6.  A risk-score call that reads an empty history answers with the
    flag [first_login], a score of 5, plus the flag [unusual_hour] and 10
    more exactly when the local hour of day lies in [2,5], and the action
    [Allow]. *)
Theorem calculateRiskScore_empty_history rt phone currentIp fingerprint m :
  ledgerFindDown rt = false →
  history rt phone m = [] →
  ∃ r,
    calculateRiskScore rt phone currentIp fingerprint m =
      (Ret r, after_call m (Call_calculateRiskScore phone currentIp fingerprint))
    ∧ "first_login" ∈ flags r
    ∧ (2 ≤ getHours rt ≤ 5 →
         score r = 5 + 10 ∧ flags r = ["first_login"; "unusual_hour"])
    ∧ (¬ (2 ≤ getHours rt ≤ 5) → score r = 5 ∧ flags r = ["first_login"])
    ∧ action r = Allow.
Proof.
  intros Hup Hempty. eexists. split.
  { rewrite calculateRiskScore_run, Hup, Hempty. reflexivity. }
  unfold assess, raise_flag. cbn [length Nat.eqb fst snd app].
  destruct ((2 <=? getHours rt) && (getHours rt <=? 5)) eqn:Hhour;
    cbn [score flags action fst snd app Z.add Z.ltb Z.compare Z.min
         Pos.compare Pos.compare_cont Pos.add].
  - apply andb_true_iff in Hhour as [?%Z.leb_le ?%Z.leb_le].
    repeat split; try done; try (intros; lia). set_solver.
  - apply andb_false_iff in Hhour as [?%Z.leb_gt | ?%Z.leb_gt];
      (repeat split; try done; try (intros; lia); try set_solver).
Qed.

Lemma calculateRiskScore_empty_history_witness :
  ∃ r,
    calculateRiskScore Demo.rt "9876543210" "10.0.0.1" "fp-1" (Demo.mem 0 None) =
      (Ret r, after_call (Demo.mem 0 None)
                (Call_calculateRiskScore "9876543210" "10.0.0.1" "fp-1"))
    ∧ "first_login" ∈ flags r
    ∧ (2 ≤ getHours Demo.rt ≤ 5 →
         score r = 5 + 10 ∧ flags r = ["first_login"; "unusual_hour"])
    ∧ (¬ (2 ≤ getHours Demo.rt ≤ 5) → score r = 5 ∧ flags r = ["first_login"])
    ∧ action r = Allow.
Proof.
  apply (calculateRiskScore_empty_history Demo.rt "9876543210" "10.0.0.1" "fp-1"
           (Demo.mem 0 None)); reflexivity.
Defined.

(** C7.  When reading the attempt ledger fails, the risk scorer does not
    throw: it returns exactly the score 10, the single flag
    [detection_error] and the action [Allow], and leaves the collections
    as they were. *)
Theorem calculateRiskScore_ledger_failure rt phone currentIp fingerprint m :
  ledgerFindDown rt = true →
  calculateRiskScore rt phone currentIp fingerprint m =
    (Ret {| score := 10; flags := ["detection_error"]; action := Allow |},
     after_call m (Call_calculateRiskScore phone currentIp fingerprint)).
Proof. intros Hdown. rewrite calculateRiskScore_run, Hdown. reflexivity. Qed.

Lemma calculateRiskScore_ledger_failure_witness :
  calculateRiskScore (Demo.runtime false true false)
      "9876543210" "10.0.0.1" "fp-1" (Demo.mem 0 None) =
    (Ret {| score := 10; flags := ["detection_error"]; action := Allow |},
     after_call (Demo.mem 0 None)
       (Call_calculateRiskScore "9876543210" "10.0.0.1" "fp-1")).
Proof.
  apply (calculateRiskScore_ledger_failure (Demo.runtime false true false)
           "9876543210" "10.0.0.1" "fp-1" (Demo.mem 0 None)).
  reflexivity.
Defined.

(** ** Running a route handler symbolically *)

Ltac run_call_in H :=
  first [ rewrite findOne_run in H | rewrite logLoginAttempt_run in H
        | rewrite calculateRiskScore_run in H | rewrite save_run in H
        | rewrite incrementFailedAttempts_run in H
        | rewrite resetFailedAttempts_run in H | rewrite create_run in H ].

(** Case analysis on an innermost scrutinee of [H]. *)
Ltac split_in H :=
  match type of H with
  | context [match ?x with _ => _ end] =>
      lazymatch x with
      | context [match _ with _ => _ end] => fail
      | _ => destruct x eqn:?
      end
  end.

Ltac run_in H :=
  unfold try_catch, bind, called, lift, ret, throw in H;
  repeat first [ run_call_in H | progress cbn beta iota in H | split_in H ].

Ltac run_call :=
  first [ rewrite findOne_run | rewrite logLoginAttempt_run
        | rewrite calculateRiskScore_run | rewrite save_run
        | rewrite incrementFailedAttempts_run
        | rewrite resetFailedAttempts_run | rewrite create_run ].

(** ** The login route *)

Section LoginFacts.
Context `{Platform}.


Lemma recorded_rejected rt data rows :
  ledger_accepts rt (attempt_of rt data) = false →
  recorded rt data rows = rows.
Proof. intros Hno. unfold recorded. by rewrite Hno. Qed.

(** The route always answers: whatever is thrown inside is turned into a
    500. *)
Lemma login_answers rt req m : ∃ resp m', login rt req m = (Ret resp, m').
Proof.
  unfold login, try_catch.
  destruct (match present (body_phone req) with _ => _ end m) as [[resp|e] m'];
    eauto.
Qed.

Lemma register_answers rt req m : ∃ resp m', register rt req m = (Ret resp, m').
Proof.
  unfold register, try_catch.
  destruct (match present (body_phone req) with _ => _ end m) as [[resp|e] m'];
    eauto.
Qed.


End LoginFacts.


(** ** The attempt ledger *)

Section LedgerFacts.
Context `{Platform}.


(** The other answers of the login route (400, 404, 500) come without any
    [logLoginAttempt] call and leave the ledger as it was. *)
Lemma login_unrecorded_verdicts rt req m resp m' :
  login rt req m = (Ret resp, m') →
  verdict_reason resp = None →
  ∃ new : list Call,
    calls m' = calls m ++ new ∧ log_calls new = [] ∧ attempts m' = attempts m.
Proof.
  intros Hrun Hverdict. unfold login in Hrun.
  run_in Hrun.
  all: try discriminate.
  all: injection Hrun as <- <-.
  all: cbn in Hverdict; try discriminate.
  all: unfold after_call; cbn [calls attempts]; rewrite <- ?app_assoc.
  all: try (eexists; split; [reflexivity|]; split; reflexivity).
  all: exists []; rewrite app_nil_r; done.
Qed.

End LedgerFacts.



(** ** Wrong PIN *)

Section WrongPinFacts.
Context `{Platform}.

(** C1, on the code.  A login that reaches PIN verification and fails it
    records the failure and answers [WrongCredential] with
    [attemptsRemaining = 5 - failedAttempts], where [failedAttempts] is the
    counter after the update.  On the attempt that locks the account (the
    counter was 4) the update has already put the counter back to 0, so the
    answer carries 5 and the text "5 attempts remaining", not 0; for a
    non-negative counter the answer never carries 0, so the text "Account
    has been locked for 30 minutes." of the route is never sent. *)
Theorem login_wrong_mpin_remaining rt req m phone encryptedMpin user rawMpin :
  present (body_phone req) = Some phone →
  present (body_encryptedMpin req) = Some encryptedMpin →
  usersDown rt = false →
  users m !! Js.replace_non_digits phone = Some user →
  User.isLocked rt user = false →
  action (login_risk rt req (Js.replace_non_digits phone) m) ≠ Block →
  rsaDecrypt encryptedMpin = Ret rawMpin →
  verifyMpin rawMpin (UserDoc.mpinHash user) (UserDoc.mpinSalt user) = Ret false →
  let user' := User.failure_recorded rt user in
  let remaining := 5 - UserDoc.failedAttempts user' in
  ∃ msg m',
    login rt req m = (Ret (WrongCredential msg remaining), m')
    ∧ users m' = <[UserDoc.phone user := user']> (users m)
    ∧ (UserDoc.failedAttempts user = 4 →
         remaining = 5
         ∧ msg = "Incorrect MPIN. 5 attempts remaining."
         ∧ UserDoc.lockedUntil user' = Some (now rt + 30 * 60 * 1000))
    ∧ (0 ≤ UserDoc.failedAttempts user → 0 < remaining).
Proof.
  intros Hp He Hup Hu Hl Hrisk Hdec Hver user' remaining.
  eexists _, _. split; [|split; [|split]].
  - unfold login, try_catch, bind. rewrite Hp, He.
    rewrite findOne_run, Hup, Hu. unfold called. rewrite Hl.
    rewrite calculateRiskScore_run.
    match goal with
    | |- context [history rt ?p ?x] =>
        change (history rt p x) with (history rt p m)
    end.
    fold (login_risk rt req (Js.replace_non_digits phone) m).
    destruct (action (login_risk rt req (Js.replace_non_digits phone) m)) eqn:Hact;
      [| |done]; rewrite Hdec; unfold lift; rewrite Hver; cbn [negb];
      rewrite incrementFailedAttempts_run, Hup, logLoginAttempt_run;
      reflexivity.
  - reflexivity.
  - intros H4. subst remaining user'. unfold User.failure_recorded.
    cbn [UserDoc.failedAttempts User.set_failures]. rewrite H4.
    by vm_compute.
  - intros Hnn. subst remaining user'. unfold User.failure_recorded.
    cbn [UserDoc.failedAttempts User.set_failures].
    destruct (5 <=? UserDoc.failedAttempts user + 1) eqn:Hth;
      [|apply Z.leb_gt in Hth];
      cbn [UserDoc.failedAttempts User.set_failures User.set_lockedUntil]; lia.
Qed.

End WrongPinFacts.

Lemma login_wrong_mpin_remaining_witness :
  ∃ m',
    login Demo.rt (Demo.request "9876543210" "enc:0000") (Demo.mem 4 None)
      = (Ret (WrongCredential "Incorrect MPIN. 5 attempts remaining." 5), m')
    ∧ users m' !! "9876543210"
      = Some (Demo.alice 0 (Some (1735732800000 + 30 * 60 * 1000))).
Proof.
  destruct (login_wrong_mpin_remaining Demo.rt
              (Demo.request "9876543210" "enc:0000") (Demo.mem 4 None)
              "9876543210" "enc:0000" (Demo.alice 4 None) "0000")
    as (msg & m' & Hrun & Husers & Hfifth & _);
    [reflexivity| reflexivity| reflexivity| reflexivity| reflexivity
    | by vm_compute | reflexivity | by vm_compute |].
  destruct (Hfifth eq_refl) as (_ & -> & _).
  exists m'. split; [exact Hrun|].
  rewrite Husers. by vm_compute.
Defined.

(** ** What the answers disclose *)

Lemma toJSON_hides_credentials (this : UserDoc.t) :
  UserDoc.toJSON this !! "mpinHash" = None
  ∧ UserDoc.toJSON this !! "mpinSalt" = None.
Proof.
  unfold UserDoc.toJSON. split.
  - rewrite lookup_delete_ne by done. rewrite lookup_delete_ne by done.
    apply lookup_delete_eq.
  - rewrite lookup_delete_ne by done. apply lookup_delete_eq.
Qed.

Lemma toJSON_keeps_phone (this : UserDoc.t) :
  UserDoc.toJSON this !! "phone" = Some (JStr (UserDoc.phone this)).
Proof.
  unfold UserDoc.toJSON, UserDoc.toObject.
  rewrite !lookup_delete_ne by done. cbn [list_to_map foldr uncurry].
  rewrite lookup_insert_ne by done. apply lookup_insert_eq.
Qed.

Section DisclosureFacts.
Context `{Platform}.

(** C10.  Whatever the stored records are, the user object carried by a
    successful answer of the register route or of the login route has no
    [mpinHash] field and no [mpinSalt] field. *)
Theorem successful_answers_hide_credentials rt req m resp m' user :
  register rt req m = (Ret resp, m') ∨ login rt req m = (Ret resp, m') →
  response_user resp = Some user →
  user !! "mpinHash" = None ∧ user !! "mpinSalt" = None.
Proof.
  intros [Hrun|Hrun] Huser.
  - unfold register in Hrun. run_in Hrun.
    all: try discriminate.
    all: injection Hrun as <- <-.
    all: cbn in Huser; try discriminate.
    all: injection Huser as <-; apply toJSON_hides_credentials.
  - unfold login in Hrun. run_in Hrun.
    all: try discriminate.
    all: injection Hrun as <- <-.
    all: cbn in Huser; try discriminate.
    all: injection Huser as <-; apply toJSON_hides_credentials.
Qed.

End DisclosureFacts.

Lemma successful_answers_hide_credentials_witness :
  ∃ token user riskScore riskFlags,
    (login Demo.rt (Demo.request "9876543210" "enc:1234") (Demo.mem 2 None)).1
      = Ret (LoggedIn token user riskScore riskFlags)
    ∧ user !! "phone" = Some (JStr "9876543210")
    ∧ user !! "mpinHash" = None ∧ user !! "mpinSalt" = None.
Proof.
  eexists _, _, _, _. split; [vm_compute; reflexivity|].
  split; [vm_compute; reflexivity|].
  eapply (successful_answers_hide_credentials Demo.rt
            (Demo.request "9876543210" "enc:1234") (Demo.mem 2 None)).
  - right. vm_compute. reflexivity.
  - reflexivity.
Defined.

(** ** Phone numbers *)

Lemma replace_non_digits_all_digits (s : string) :
  Js.all_digits (Js.replace_non_digits s) = true.
Proof.
  induction s as [|c s IH]; [reflexivity|].
  cbn [Js.replace_non_digits]. destruct (Js.is_digit c) eqn:Hc; [|exact IH].
  cbn [Js.all_digits]. by rewrite Hc, IH.
Qed.

Lemma replace_non_digits_fixes_digits (s : string) :
  Js.all_digits s = true → Js.replace_non_digits s = s.
Proof.
  induction s as [|c s IH]; [reflexivity|].
  cbn [Js.all_digits Js.replace_non_digits].
  intros [Hc Hs]%andb_true_iff. rewrite Hc. by rewrite IH.
Qed.

(** The verify-otp route turns away a phone whose digits-only form is
    shorter than 10 or longer than 15 before it looks anything up. *)
Lemma verify_otp_rejects_bad_length rt req m phone :
  present (body_phone req) = Some phone →
  Js.len (Js.replace_non_digits phone) < 10
  ∨ 15 < Js.len (Js.replace_non_digits phone) →
  verify_otp rt req m = (Ret (InvalidInput "Invalid phone number format"), m).
Proof.
  intros Hp Hlen. unfold verify_otp, try_catch. rewrite Hp.
  replace ((Js.len (Js.replace_non_digits phone) <? 10)
           || (15 <? Js.len (Js.replace_non_digits phone))) with true; [done|].
  symmetry. apply orb_true_iff. destruct Hlen; [left|right]; by apply Z.ltb_lt.
Qed.

(** C5, on the code.  The phone "12345" has five digits.  The verify-otp
    route rejects it as an invalid phone number without any call.  The
    register route does not: it looks the phone up, decrypts the PIN and
    only fails when the new document is created, with a server error.  The
    login route does not either: it looks the phone up and answers that
    the user was not found. *)
Theorem short_phone_reaches_register_and_login :
  Js.len (Js.replace_non_digits "12345") = 5
  ∧ verify_otp Demo.rt (Demo.request "12345" "enc:1234") (Demo.mem 0 None)
    = (Ret (InvalidInput "Invalid phone number format"), Demo.mem 0 None)
  ∧ (register Demo.rt (Demo.request "12345" "enc:1234") (Demo.mem 0 None)).1
    = Ret (ServerError "Server error during registration")
  ∧ calls (register Demo.rt (Demo.request "12345" "enc:1234") (Demo.mem 0 None)).2
    = [Call_User_findOne "12345"; Call_rsaDecrypt; Call_User_create]
  ∧ (login Demo.rt (Demo.request "12345" "enc:1234") (Demo.mem 0 None)).1
    = Ret (NotFound "User not found. Please register first.")
  ∧ calls (login Demo.rt (Demo.request "12345" "enc:1234") (Demo.mem 0 None)).2
    = [Call_User_findOne "12345"].
Proof.
  split; [reflexivity|].
  split; [apply (verify_otp_rejects_bad_length _ _ _ "12345"); [reflexivity|left; by vm_compute]|].
  repeat split; by vm_compute.
Qed.

(** * Further properties of the code *)

(** ** Verification against stored digests *)

Section VerifyFacts.
Context `{Platform}.

(** X1.  Against a stored digest that [sha512Hash] produced, [verifyMpin]
    never throws, and it answers [true] exactly when the SHA-512 digest of
    [salt + inputMpin] is the stored one: a PIN or a salt with another
    digest is refused. *)
Theorem verifyMpin_true_iff_same_digest
    (inputMpin storedMpin salt storedSalt : string) :
  ∃ b : bool,
    verifyMpin inputMpin (sha512Hash storedMpin storedSalt) salt = Ret b
    ∧ (b = true ↔
       sha512 (salt +:+ inputMpin) = sha512 (storedSalt +:+ storedMpin)).
Proof.
  eexists. split; [apply verifyMpin_decides|].
  apply bool_decide_eq_true.
Qed.

(** X2.  [verifyMpin] compares the 64 digest bytes with whatever the
    stored hash decodes to.  When the stored hash decodes to 64 bytes it
    answers whether they are the digest; when it decodes to any other
    number of bytes (too short, or cut at a character that is not
    hexadecimal) it throws instead of answering [false]. *)
Theorem verifyMpin_throws_unless_64_bytes (inputMpin storedHash salt : string) :
  verifyMpin inputMpin storedHash salt =
    if (length (Buffer.from_hex storedHash) =? 64)%nat
    then Ret (bool_decide (sha512 (salt +:+ inputMpin) = Buffer.from_hex storedHash))
    else Throw "Input buffers must have the same byte length".
Proof.
  unfold verifyMpin. rewrite sha512Hash_decodes.
  destruct (length (Buffer.from_hex storedHash) =? 64)%nat eqn:Hlen.
  - apply Nat.eqb_eq in Hlen. apply timingSafeEqual_decides.
    by rewrite sha512_length.
  - unfold timingSafeEqual. rewrite sha512_length.
    rewrite Nat.eqb_sym, Hlen. reflexivity.
Qed.

End VerifyFacts.

(** ** The lockout counter over several attempts *)



Lemma failure_recorded_cases rt this :
  (5 ≤ UserDoc.failedAttempts this + 1
   ∧ UserDoc.failedAttempts (User.failure_recorded rt this) = 0
   ∧ UserDoc.lockedUntil (User.failure_recorded rt this)
     = Some (now rt + 30 * 60 * 1000))
  ∨ (UserDoc.failedAttempts this + 1 < 5
     ∧ UserDoc.failedAttempts (User.failure_recorded rt this)
       = UserDoc.failedAttempts this + 1
     ∧ UserDoc.lockedUntil (User.failure_recorded rt this)
       = UserDoc.lockedUntil this).
Proof.
  unfold User.failure_recorded. cbn [UserDoc.failedAttempts User.set_failures].
  destruct (5 <=? UserDoc.failedAttempts this + 1) eqn:Hth;
    [apply Z.leb_le in Hth; left | apply Z.leb_gt in Hth; right];
    cbn [UserDoc.failedAttempts UserDoc.lockedUntil User.set_failures
         User.set_lockedUntil]; done.
Qed.

Lemma failures_recorded_below rts this :
  UserDoc.failedAttempts this + Z.of_nat (length rts) < 5 →
  UserDoc.failedAttempts (failures_recorded rts this)
    = UserDoc.failedAttempts this + Z.of_nat (length rts)
  ∧ UserDoc.lockedUntil (failures_recorded rts this) = UserDoc.lockedUntil this.
Proof.
  revert this. induction rts as [|rt rts IH]; intros this Hlt.
  - cbn. split; [lia|done].
  - cbn [failures_recorded fold_left length] in *.
    destruct (failure_recorded_cases rt this) as [(? & _)|(_ & Hfa & Hlock)]; [lia|].
    destruct (IH (User.failure_recorded rt this)) as [IHfa IHlock]; [lia|].
    unfold failures_recorded in *. rewrite IHfa, IHlock, Hfa, Hlock. split; [lia|done].
Qed.

(** X4.  Failures add up to the lock.  Starting from a counter [c], a run
    of failed attempts that brings the count to 4 leaves every
    intermediate document unlocked as it was, with the counter at [c] plus
    the number of failures so far; the next failure, recorded at time
    [now], stores the counter 0 and the lock expiry [now + 30 minutes].
    From a fresh account that is the fifth consecutive failure. *)
Theorem consecutive_failures_lock rts rt this :
  UserDoc.failedAttempts this + Z.of_nat (length rts) = 4 →
  (∀ k : nat,
     (k ≤ length rts)%nat →
     UserDoc.failedAttempts (failures_recorded (take k rts) this)
       = UserDoc.failedAttempts this + Z.of_nat k
     ∧ UserDoc.lockedUntil (failures_recorded (take k rts) this)
       = UserDoc.lockedUntil this)
  ∧ UserDoc.failedAttempts (failures_recorded (rts ++ [rt]) this) = 0
  ∧ UserDoc.lockedUntil (failures_recorded (rts ++ [rt]) this)
    = Some (now rt + 30 * 60 * 1000).
Proof.
  intros Hfour. split.
  - intros k Hk.
    destruct (failures_recorded_below (take k rts) this) as [Hfa Hlock].
    + rewrite length_take. lia.
    + rewrite Hfa, Hlock, length_take. split; [lia|done].
  - unfold failures_recorded. rewrite fold_left_app. cbn [fold_left].
    fold (failures_recorded rts this).
    destruct (failures_recorded_below rts this) as [Hfa _]; [lia|].
    destruct (failure_recorded_cases rt (failures_recorded rts this))
      as [(_ & H0 & Hlock)|(Hlt & _)]; [done|lia].
Qed.

Lemma consecutive_failures_lock_witness :
  UserDoc.failedAttempts
    (failures_recorded (repeat Demo.rt 4 ++ [Demo.rt]) (Demo.alice 0 None)) = 0
  ∧ UserDoc.lockedUntil
      (failures_recorded (repeat Demo.rt 4 ++ [Demo.rt]) (Demo.alice 0 None))
    = Some (now Demo.rt + 30 * 60 * 1000).
Proof.
  exact (proj2 (consecutive_failures_lock (repeat Demo.rt 4) Demo.rt
                  (Demo.alice 0 None) eq_refl)).
Defined.

(** X5.  A lock set by the failure recorded at time [t] holds for every
    check made before [t + 30 minutes] and for none made at or after it:
    the lock expires by itself. *)
Theorem lock_lasts_thirty_minutes rt rt' this :
  5 ≤ UserDoc.failedAttempts this + 1 →
  User.isLocked rt' (User.failure_recorded rt this) = true
    ↔ now rt' < now rt + 30 * 60 * 1000.
Proof.
  intros Hth. unfold User.isLocked.
  destruct (failure_recorded_cases rt this) as [(_ & _ & ->)|(? & _)]; [|lia].
  apply Z.ltb_lt.
Qed.

Lemma lock_lasts_thirty_minutes_witness :
  User.isLocked Demo.rt (User.failure_recorded Demo.rt (Demo.alice 4 None)) = true
    ↔ now Demo.rt < now Demo.rt + 30 * 60 * 1000.
Proof.
  apply (lock_lasts_thirty_minutes Demo.rt Demo.rt (Demo.alice 4 None)).
  cbn. lia.
Defined.

(** ** The risk scorer on a history *)

Lemma distinct_elem (seen l : list string) (x : string) :
  x ∈ distinct seen l ↔ x ∈ l ∧ x ∉ seen.
Proof.
  revert seen. induction l as [|y l IH]; intros seen; cbn [distinct].
  - split; [by intros ?%elem_of_nil | by intros [?%elem_of_nil _]].
  - case_bool_decide as Hy.
    + rewrite IH, elem_of_cons. split; [tauto|].
      intros [[->|Hx] Hseen]; [done | tauto].
    + rewrite !elem_of_cons, IH, not_elem_of_cons.
      destruct (decide (x = y)) as [->|Hne]; [tauto|]. tauto.
Qed.

Lemma distinct_NoDup (seen l : list string) : NoDup (distinct seen l).
Proof.
  revert seen. induction l as [|y l IH]; intros seen; cbn [distinct].
  - constructor.
  - case_bool_decide as Hy; [apply IH|].
    constructor; [|apply IH]. rewrite distinct_elem, not_elem_of_cons. tauto.
Qed.

Lemma includes_distinct (l : list string) (x : string) :
  includes (distinct [] l) x = bool_decide (x ∈ l).
Proof.
  unfold includes. apply bool_decide_ext. rewrite distinct_elem.
  split; [tauto|]. intros Hx. split; [done|]. apply not_elem_of_nil.
Qed.

Lemma distinct_nonempty (l : list string) :
  (0 <? length (distinct [] l))%nat = negb (bool_decide (l = [])).
Proof.
  destruct l as [|y l]; [done|]. cbn [distinct].
  rewrite (bool_decide_eq_false_2 (y ∈ [])) by apply not_elem_of_nil.
  by rewrite bool_decide_eq_false_2.
Qed.

(** [assess] as five independent tests. *)
Lemma assess_by_tests rt rows currentIp fingerprint :
  assess rt rows currentIp fingerprint =
    let acc :=
      if (length rows =? 0)%nat then raise_flag true "first_login" 5 ([], 0)
      else
        raise_flag (sees_high_failure_rate rows) "high_failure_rate" 15
          (raise_flag (sees_rapid_attempts rt rows) "rapid_attempts" 30
             (raise_flag (sees_new_device rows fingerprint) "new_device" 25
                (raise_flag (sees_new_ip rows currentIp) "new_ip" 20 ([], 0)))) in
    let acc := raise_flag (sees_unusual_hour rt) "unusual_hour" 10 acc in
    {| score := Z.min acc.2 100; flags := acc.1;
       action := if 60 <? acc.2 then Block else if 30 <? acc.2 then Warn else Allow |}.
Proof.
  unfold assess, sees_new_ip, sees_new_device, sees_rapid_attempts,
    sees_high_failure_rate, sees_unusual_hour, successful_ips,
    successful_fingerprints, rapid_rows.
  rewrite <- !includes_distinct, <- !distinct_nonempty. reflexivity.
Qed.

Ltac assess_cases rt rows currentIp fingerprint :=
  rewrite (assess_by_tests rt rows currentIp fingerprint);
  destruct (length rows =? 0)%nat eqn:?;
  destruct (sees_new_ip rows currentIp) eqn:?;
  destruct (sees_new_device rows fingerprint) eqn:?;
  destruct (sees_rapid_attempts rt rows) eqn:?;
  destruct (sees_high_failure_rate rows) eqn:?;
  destruct (sees_unusual_hour rt) eqn:?;
  cbv beta iota zeta delta [raise_flag fst snd app score flags action].

(** X6.  Whatever the ledger holds and whether or not it can be read, the
    scorer answers with a score between 0 and 100, and the action follows
    the score: [Allow] up to 30, [Warn] from 31 to 60, [Block] above 60. *)
Theorem calculateRiskScore_score_and_action rt phone currentIp fingerprint m :
  ∃ r,
    calculateRiskScore rt phone currentIp fingerprint m =
      (Ret r, after_call m (Call_calculateRiskScore phone currentIp fingerprint))
    ∧ 0 ≤ score r ≤ 100
    ∧ (action r = Allow ↔ score r ≤ 30)
    ∧ (action r = Warn ↔ 30 < score r ≤ 60)
    ∧ (action r = Block ↔ 60 < score r).
Proof.
  eexists. split; [apply calculateRiskScore_run|].
  destruct (ledgerFindDown rt); [vm_compute; intuition congruence|].
  generalize (history rt phone m). intros rows.
  assess_cases rt rows currentIp fingerprint;
    vm_compute; intuition congruence.
Qed.

(** X7.  The score is the sum of the points of the flags that are
    returned, and no flag is returned twice: 5 for [first_login], 20 for
    [new_ip], 25 for [new_device], 30 for [rapid_attempts], 15 for
    [high_failure_rate], 10 for [unusual_hour], and 10 for the
    [detection_error] of the fallback answer. *)
Theorem calculateRiskScore_score_is_sum_of_flags rt phone currentIp fingerprint m :
  ∃ r,
    calculateRiskScore rt phone currentIp fingerprint m =
      (Ret r, after_call m (Call_calculateRiskScore phone currentIp fingerprint))
    ∧ score r = total_points (flags r)
    ∧ NoDup (flags r).
Proof.
  eexists. split; [apply calculateRiskScore_run|].
  destruct (ledgerFindDown rt).
  { split; [reflexivity|]. apply NoDup_singleton. }
  generalize (history rt phone m). intros rows.
  assess_cases rt rows currentIp fingerprint;
    (split; [reflexivity|]); compute_done.
Qed.

(** Closed facts about a computed assessment. *)
Ltac risk_facts := repeat split; first [done | compute_done | by vm_compute].

Lemma known_ip_not_new rows currentIp :
  currentIp ∈ successful_ips rows → sees_new_ip rows currentIp = false.
Proof.
  intros Hin. unfold sees_new_ip.
  rewrite (bool_decide_eq_true_2 (currentIp ∈ _)) by done. apply andb_false_r.
Qed.

Lemma known_device_not_new rows fingerprint :
  fingerprint ∈ successful_fingerprints rows →
  sees_new_device rows fingerprint = false.
Proof.
  intros Hin. unfold sees_new_device.
  rewrite (bool_decide_eq_true_2 (fingerprint ∈ _)) by done. apply andb_false_r.
Qed.

Lemma unknown_ip_is_new rows currentIp :
  successful_ips rows ≠ [] → currentIp ∉ successful_ips rows →
  sees_new_ip rows currentIp = true.
Proof.
  intros Hne Hnot. unfold sees_new_ip.
  by rewrite (bool_decide_eq_false_2 (_ = [])), (bool_decide_eq_false_2 (_ ∈ _)).
Qed.

Lemma unknown_device_is_new rows fingerprint :
  successful_fingerprints rows ≠ [] → fingerprint ∉ successful_fingerprints rows →
  sees_new_device rows fingerprint = true.
Proof.
  intros Hne Hnot. unfold sees_new_device.
  by rewrite (bool_decide_eq_false_2 (_ = [])), (bool_decide_eq_false_2 (_ ∈ _)).
Qed.

Lemma no_success_no_known rows :
  Forall (λ a, LoginAttempt.success a = false) rows →
  List.filter LoginAttempt.success rows = [].
Proof.
  induction 1 as [|a rows Ha _ IH]; [done|]. cbn [List.filter]. by rewrite Ha.
Qed.

Lemma all_failed_high_rate rows :
  rows ≠ [] →
  Forall (λ a, LoginAttempt.success a = false) rows →
  sees_high_failure_rate rows = true.
Proof.
  intros Hne Hall. unfold sees_high_failure_rate.
  replace (List.filter (λ a, negb (LoginAttempt.success a)) rows) with rows.
  - destruct rows as [|a rows]; [done|]. cbn [length]. apply Z.ltb_lt. lia.
  - clear Hne. induction Hall as [|a rows Ha _ IH]; [done|].
    cbn [List.filter]. rewrite Ha. cbn [negb]. by rewrite <- IH.
Qed.

Lemma rapid_rows_nonempty rt rows :
  sees_rapid_attempts rt rows = true → (length rows =? 0)%nat = false.
Proof.
  unfold sees_rapid_attempts, rapid_rows. intros Hrapid%Nat.ltb_lt.
  destruct rows as [|a rows]; [cbn in Hrapid; lia|done].
Qed.

(** X8.  A login from an IP and a device that both appear among the
    successful attempts of the history that is read is never blocked by the
    scorer, however many recent or failed attempts there are: neither
    [new_ip] nor [new_device] is flagged and the score is at most 55. *)
Theorem known_ip_and_device_never_blocked rt phone currentIp fingerprint m :
  currentIp ∈ successful_ips (history rt phone m) →
  fingerprint ∈ successful_fingerprints (history rt phone m) →
  ∃ r,
    calculateRiskScore rt phone currentIp fingerprint m =
      (Ret r, after_call m (Call_calculateRiskScore phone currentIp fingerprint))
    ∧ action r ≠ Block
    ∧ score r ≤ 55
    ∧ ("new_ip" ∉ flags r)
    ∧ ("new_device" ∉ flags r).
Proof.
  intros Hip%known_ip_not_new Hfp%known_device_not_new.
  eexists. split; [apply calculateRiskScore_run|].
  destruct (ledgerFindDown rt); [risk_facts|].
  revert Hip Hfp. generalize (history rt phone m). intros rows Hip Hfp.
  assess_cases rt rows currentIp fingerprint; try congruence; risk_facts.
Qed.

(** X9.  When no attempt of the history that is read was successful, the
    scorer has no known IP and no known device to compare with: it flags
    neither [new_ip] nor [new_device], whatever the caller's IP and
    fingerprint are, and it never blocks.  A history that is not empty is
    then flagged [high_failure_rate]. *)
Theorem failed_only_history_never_blocked rt phone currentIp fingerprint m :
  Forall (λ a, LoginAttempt.success a = false) (history rt phone m) →
  ∃ r,
    calculateRiskScore rt phone currentIp fingerprint m =
      (Ret r, after_call m (Call_calculateRiskScore phone currentIp fingerprint))
    ∧ action r ≠ Block
    ∧ ("new_ip" ∉ flags r)
    ∧ ("new_device" ∉ flags r)
    ∧ (ledgerFindDown rt = false → history rt phone m ≠ [] →
       "high_failure_rate" ∈ flags r).
Proof.
  intros Hall.
  eexists. split; [apply calculateRiskScore_run|].
  destruct (ledgerFindDown rt); [risk_facts|].
  assert (sees_new_ip (history rt phone m) currentIp = false) as Hip.
  { unfold sees_new_ip, successful_ips. by rewrite no_success_no_known. }
  assert (sees_new_device (history rt phone m) fingerprint = false) as Hfp.
  { unfold sees_new_device, successful_fingerprints. by rewrite no_success_no_known. }
  assert (history rt phone m ≠ [] →
          sees_high_failure_rate (history rt phone m) = true) as Hrate.
  { intros Hne. by apply all_failed_high_rate. }
  revert Hip Hfp Hrate. generalize (history rt phone m). intros rows Hip Hfp Hrate.
  assess_cases rt rows currentIp fingerprint; try congruence;
    (split; [done|]); (split; [compute_done|]); (split; [compute_done|]);
    intros _ Hne; first [compute_done | specialize (Hrate Hne); congruence
                        | destruct rows; done].
Qed.

(** X10.  More than three attempts in the last five minutes together with
    an IP that is none of the IPs of the successful attempts: both
    [rapid_attempts] and [new_ip] are flagged, the score is at least 50 and
    the login is not simply allowed (it is warned about or blocked). *)
Theorem rapid_attempts_from_new_ip_not_allowed rt phone currentIp fingerprint m :
  ledgerFindDown rt = false →
  (3 < length (rapid_rows rt (history rt phone m)))%nat →
  successful_ips (history rt phone m) ≠ [] →
  currentIp ∉ successful_ips (history rt phone m) →
  ∃ r,
    calculateRiskScore rt phone currentIp fingerprint m =
      (Ret r, after_call m (Call_calculateRiskScore phone currentIp fingerprint))
    ∧ "new_ip" ∈ flags r
    ∧ "rapid_attempts" ∈ flags r
    ∧ 50 ≤ score r
    ∧ action r ≠ Allow.
Proof.
  intros Hup Hrapid%Nat.ltb_lt Hne Hnot.
  pose proof (unknown_ip_is_new _ _ Hne Hnot) as Hip.
  fold (sees_rapid_attempts rt (history rt phone m)) in Hrapid.
  pose proof (rapid_rows_nonempty _ _ Hrapid) as Hrows.
  eexists. split; [apply calculateRiskScore_run|]. rewrite Hup.
  revert Hip Hrapid Hrows. generalize (history rt phone m). intros rows Hip Hrapid Hrows.
  assess_cases rt rows currentIp fingerprint; try congruence;
    risk_facts.
Qed.

(** X11.  More than three attempts in the last five minutes from an IP and
    a device that are both unknown, while successful attempts are on
    record: the login is blocked, with a score of at least 75. *)
Theorem rapid_attempts_from_new_ip_and_device_blocked
    rt phone currentIp fingerprint m :
  ledgerFindDown rt = false →
  (3 < length (rapid_rows rt (history rt phone m)))%nat →
  List.filter LoginAttempt.success (history rt phone m) ≠ [] →
  currentIp ∉ successful_ips (history rt phone m) →
  fingerprint ∉ successful_fingerprints (history rt phone m) →
  ∃ r,
    calculateRiskScore rt phone currentIp fingerprint m =
      (Ret r, after_call m (Call_calculateRiskScore phone currentIp fingerprint))
    ∧ action r = Block
    ∧ 75 ≤ score r.
Proof.
  intros Hup Hrapid%Nat.ltb_lt Hne Hnotip Hnotfp.
  assert (successful_ips (history rt phone m) ≠ []) as Hips.
  { unfold successful_ips. by destruct (List.filter _ _). }
  assert (successful_fingerprints (history rt phone m) ≠ []) as Hfps.
  { unfold successful_fingerprints. by destruct (List.filter _ _). }
  pose proof (unknown_ip_is_new _ _ Hips Hnotip) as Hip.
  pose proof (unknown_device_is_new _ _ Hfps Hnotfp) as Hfp.
  fold (sees_rapid_attempts rt (history rt phone m)) in Hrapid.
  pose proof (rapid_rows_nonempty _ _ Hrapid) as Hrows.
  eexists. split; [apply calculateRiskScore_run|]. rewrite Hup.
  revert Hip Hfp Hrapid Hrows. generalize (history rt phone m).
  intros rows Hip Hfp Hrapid Hrows.
  assess_cases rt rows currentIp fingerprint; try congruence; risk_facts.
Qed.

Lemma known_ip_and_device_never_blocked_witness :
  ∃ r,
    calculateRiskScore Demo.rt "9876543210" "10.0.0.1" "fp-1"
        (Sample.mem Sample.busy_rows) =
      (Ret r, after_call (Sample.mem Sample.busy_rows)
                (Call_calculateRiskScore "9876543210" "10.0.0.1" "fp-1"))
    ∧ action r ≠ Block
    ∧ score r ≤ 55
    ∧ ("new_ip" ∉ flags r)
    ∧ ("new_device" ∉ flags r).
Proof.
  apply (known_ip_and_device_never_blocked Demo.rt "9876543210" "10.0.0.1" "fp-1"
           (Sample.mem Sample.busy_rows)); compute_done.
Defined.

Lemma failed_only_history_never_blocked_witness :
  ∃ r,
    calculateRiskScore Demo.rt "9876543210" "10.0.0.1" "fp-1"
        (Sample.mem Sample.failed_rows) =
      (Ret r, after_call (Sample.mem Sample.failed_rows)
                (Call_calculateRiskScore "9876543210" "10.0.0.1" "fp-1"))
    ∧ action r ≠ Block
    ∧ ("new_ip" ∉ flags r)
    ∧ ("new_device" ∉ flags r)
    ∧ (ledgerFindDown Demo.rt = false →
       history Demo.rt "9876543210" (Sample.mem Sample.failed_rows) ≠ [] →
       "high_failure_rate" ∈ flags r).
Proof.
  apply (failed_only_history_never_blocked Demo.rt "9876543210" "10.0.0.1" "fp-1"
           (Sample.mem Sample.failed_rows)).
  by vm_compute; repeat constructor.
Defined.

Lemma rapid_attempts_from_new_ip_not_allowed_witness :
  ∃ r,
    calculateRiskScore Demo.rt "9876543210" "10.0.0.7" "fp-1"
        (Sample.mem Sample.busy_rows) =
      (Ret r, after_call (Sample.mem Sample.busy_rows)
                (Call_calculateRiskScore "9876543210" "10.0.0.7" "fp-1"))
    ∧ "new_ip" ∈ flags r
    ∧ "rapid_attempts" ∈ flags r
    ∧ 50 ≤ score r
    ∧ action r ≠ Allow.
Proof.
  apply (rapid_attempts_from_new_ip_not_allowed Demo.rt "9876543210" "10.0.0.7"
           "fp-1" (Sample.mem Sample.busy_rows));
    first [reflexivity | by vm_compute | compute_done].
Defined.

Lemma rapid_attempts_from_new_ip_and_device_blocked_witness :
  ∃ r,
    calculateRiskScore Demo.rt "9876543210" "10.0.0.7" "fp-7"
        (Sample.mem Sample.busy_rows) =
      (Ret r, after_call (Sample.mem Sample.busy_rows)
                (Call_calculateRiskScore "9876543210" "10.0.0.7" "fp-7"))
    ∧ action r = Block
    ∧ 75 ≤ score r.
Proof.
  apply (rapid_attempts_from_new_ip_and_device_blocked Demo.rt "9876543210"
           "10.0.0.7" "fp-7" (Sample.mem Sample.busy_rows));
    first [reflexivity | by vm_compute | compute_done].
Defined.

(** ** The history the scorer reads *)






(** ** The login route on a correct PIN *)

Section LoginSuccessFacts.
Context `{Platform}.

Lemma set_devices_same this : User.set_devices this (UserDoc.devices this) = this.
Proof. by destruct this. Qed.

Lemma touch_device_None rt fp ds :
  touch_device rt fp ds = None → fp ∉ map Device.fingerprint ds.
Proof.
  induction ds as [|d ds IH]; cbn [touch_device map]; [intros _; apply not_elem_of_nil|].
  destruct (String.eqb (Device.fingerprint d) fp) eqn:Hd; [done|].
  apply String.eqb_neq in Hd.
  destruct (touch_device rt fp ds); [done|]. intros _.
  apply not_elem_of_cons. split; [done|by apply IH].
Qed.

Lemma touch_device_Some rt fp ds touched :
  touch_device rt fp ds = Some touched →
  map Device.fingerprint touched = map Device.fingerprint ds
  ∧ map Device.trusted touched = map Device.trusted ds
  ∧ ∃ d, d ∈ touched ∧ Device.fingerprint d = fp ∧ Device.lastUsed d = now rt.
Proof.
  revert touched. induction ds as [|d ds IH]; cbn [touch_device]; [done|].
  intros touched.
  destruct (String.eqb (Device.fingerprint d) fp) eqn:Hd.
  - apply String.eqb_eq in Hd. intros [= <-]. repeat split; [done..|].
    eexists. split; [apply list_elem_of_here|]. done.
  - destruct (touch_device rt fp ds) as [rest|]; [|done].
    intros [= <-]. destruct (IH rest eq_refl) as (Hfps & Htrust & d' & Hin & Hfp & Hused).
    cbn [map]. rewrite Hfps, Htrust. repeat split; [done..|].
    exists d'. split; [by apply list_elem_of_further|done].
Qed.

(** The run of a login that passes the lock check, the scorer and the
    verification. *)
Lemma login_success_run rt req m phone encryptedMpin user rawMpin :
  present (body_phone req) = Some phone →
  present (body_encryptedMpin req) = Some encryptedMpin →
  usersDown rt = false →
  users m !! Js.replace_non_digits phone = Some user →
  User.isLocked rt user = false →
  action (login_risk rt req (Js.replace_non_digits phone) m) ≠ Block →
  rsaDecrypt encryptedMpin = Ret rawMpin →
  verifyMpin rawMpin (UserDoc.mpinHash user) (UserDoc.mpinSalt user) = Ret true →
  let p := Js.replace_non_digits phone in
  let risk := login_risk rt req p m in
  let user' :=
    User.set_devices (User.success_recorded rt user)
      (bound_devices rt req (UserDoc.devices user)) in
  ∃ made,
    login rt req m =
      (Ret (LoggedIn (generateToken rt (UserDoc._id user) p)
                     (UserDoc.toJSON user') (score risk) (flags risk)),
       {| users := <[UserDoc.phone user := user']> (users m);
          attempts := recorded rt (success_data req p risk) (attempts m);
          calls := calls m ++ made |})
    ∧ log_calls made = [success_data req p risk].
Proof.
  intros Hp He Hup Hu Hl Hrisk Hdec Hver p risk user'. subst p risk user'.
  unfold login, try_catch, bind. rewrite Hp, He.
  rewrite findOne_run, Hup, Hu. unfold called. rewrite Hl.
  rewrite calculateRiskScore_run.
  match goal with
  | |- context [history rt ?p ?x] =>
      change (history rt p x) with (history rt p m)
  end.
  fold (login_risk rt req (Js.replace_non_digits phone) m).
  unfold bound_devices.
  destruct (action (login_risk rt req (Js.replace_non_digits phone) m)) eqn:Hact;
    [| |done]; rewrite Hdec; unfold lift; rewrite Hver; cbn [negb];
    rewrite resetFailedAttempts_run, Hup;
    cbn [UserDoc.devices User.set_devices User.success_recorded User.set_failures
         User.set_lockedUntil User.set_lastLogin];
    (destruct (present (body_fingerprint req)) as [fp|];
     [ destruct (touch_device rt fp (UserDoc.devices user)) as [touched|];
       rewrite save_run, Hup
     | ]);
    unfold ret; cbn beta iota;
    rewrite logLoginAttempt_run; unfold after_call; cbn [users attempts calls UserDoc._id
      UserDoc.phone User.set_devices User.success_recorded User.set_failures
      User.set_lockedUntil User.set_lastLogin UserDoc.devices];
    rewrite ?insert_insert_eq, <- ?app_assoc;
    eexists; (split; [reflexivity|reflexivity]).
Qed.

(** X13.  A login with the right PIN, for a user who is found and not
    locked and whom the scorer does not block, succeeds at any failure
    count: the answer carries the token, the user object and the
    scorer's score and flags; the stored user has the failure counter at
    0, no lock, the current time as last login and the same digest and
    salt; and the ledger has gone through one write, of a successful
    attempt with that score. *)
Theorem login_success_resets_lockout rt req m phone encryptedMpin user rawMpin :
  present (body_phone req) = Some phone →
  present (body_encryptedMpin req) = Some encryptedMpin →
  usersDown rt = false →
  users m !! Js.replace_non_digits phone = Some user →
  User.isLocked rt user = false →
  action (login_risk rt req (Js.replace_non_digits phone) m) ≠ Block →
  rsaDecrypt encryptedMpin = Ret rawMpin →
  verifyMpin rawMpin (UserDoc.mpinHash user) (UserDoc.mpinSalt user) = Ret true →
  let p := Js.replace_non_digits phone in
  let risk := login_risk rt req p m in
  ∃ stored m',
    login rt req m =
      (Ret (LoggedIn (generateToken rt (UserDoc._id user) p)
                     (UserDoc.toJSON stored) (score risk) (flags risk)), m')
    ∧ users m' = <[UserDoc.phone user := stored]> (users m)
    ∧ UserDoc.failedAttempts stored = 0
    ∧ UserDoc.lockedUntil stored = None
    ∧ UserDoc.lastLogin stored = Some (now rt)
    ∧ UserDoc.mpinHash stored = UserDoc.mpinHash user
    ∧ UserDoc.mpinSalt stored = UserDoc.mpinSalt user
    ∧ attempts m' = recorded rt (success_data req p risk) (attempts m)
    ∧ log_calls (drop (length (calls m)) (calls m')) = [success_data req p risk].
Proof.
  intros Hp He Hup Hu Hl Hrisk Hdec Hver p risk.
  destruct (login_success_run rt req m phone encryptedMpin user rawMpin
              Hp He Hup Hu Hl Hrisk Hdec Hver) as (made & Hrun & Hlog).
  eexists _, _. split; [exact Hrun|].
  cbn [users attempts calls]. rewrite drop_app_length.
  repeat split; done.
Qed.

(** X14.  The device binding of a successful login never removes a device
    and never changes the fingerprint or the trust of a device on record.
    Without a fingerprint in the request the list is saved as it was; with
    a fingerprint that is on record the list keeps its length and a device
    with that fingerprint is stamped with the current time; with a
    fingerprint that is not on record exactly one device is appended, and
    it is trusted at first sight. *)
Theorem login_success_binds_device rt req m phone encryptedMpin user rawMpin :
  present (body_phone req) = Some phone →
  present (body_encryptedMpin req) = Some encryptedMpin →
  usersDown rt = false →
  users m !! Js.replace_non_digits phone = Some user →
  User.isLocked rt user = false →
  action (login_risk rt req (Js.replace_non_digits phone) m) ≠ Block →
  rsaDecrypt encryptedMpin = Ret rawMpin →
  verifyMpin rawMpin (UserDoc.mpinHash user) (UserDoc.mpinSalt user) = Ret true →
  let known := map Device.fingerprint (UserDoc.devices user) in
  let added :=
    match present (body_fingerprint req) with
    | Some fp => if bool_decide (fp ∈ known) then [] else [fp]
    | None => []
    end in
  ∃ resp m' stored,
    login rt req m = (Ret resp, m')
    ∧ users m' !! UserDoc.phone user = Some stored
    ∧ map Device.fingerprint (UserDoc.devices stored) = known ++ added
    ∧ map Device.trusted (UserDoc.devices stored)
      = map Device.trusted (UserDoc.devices user) ++ map (λ _, true) added
    ∧ (∀ fp, present (body_fingerprint req) = Some fp →
         ∃ d, d ∈ UserDoc.devices stored
              ∧ Device.fingerprint d = fp ∧ Device.lastUsed d = now rt).
Proof.
  intros Hp He Hup Hu Hl Hrisk Hdec Hver known added.
  destruct (login_success_run rt req m phone encryptedMpin user rawMpin
              Hp He Hup Hu Hl Hrisk Hdec Hver) as (made & Hrun & _).
  eexists _, _, _. split; [exact Hrun|].
  cbn [users]. split; [apply lookup_insert_eq|].
  cbn [UserDoc.devices User.set_devices]. subst known added.
  unfold bound_devices.
  destruct (present (body_fingerprint req)) as [fp|];
    [|rewrite !app_nil_r; repeat split; done].
  destruct (touch_device rt fp (UserDoc.devices user)) as [touched|] eqn:Htouch.
  - apply touch_device_Some in Htouch as (Hfps & Htrust & d & Hd & Hfp & Hused).
    rewrite bool_decide_eq_true_2, !app_nil_r.
    + repeat split; [done|done|]. intros ? [= <-]. eauto.
    + rewrite <- Hfps, <- Hfp. by apply list_elem_of_fmap_2.
  - apply touch_device_None in Htouch.
    rewrite bool_decide_eq_false_2 by done.
    rewrite !map_app. repeat split; [done..|].
    intros ? [= <-]. exists (new_device rt req fp).
    split; [|done]. apply elem_of_app. right. apply list_elem_of_singleton. done.
Qed.

(** X15.  When the scorer blocks, the login is refused as suspicious with
    the scorer's flags before the PIN is touched: the ciphertext is not
    decrypted, nothing is verified, the user record (failure counter and
    lock included) stays as it was, and the ledger goes through one
    write, of a failed attempt with reason [fraud_detected] and the
    score. *)
Theorem login_risk_blocked rt req m phone encryptedMpin user :
  present (body_phone req) = Some phone →
  present (body_encryptedMpin req) = Some encryptedMpin →
  usersDown rt = false →
  users m !! Js.replace_non_digits phone = Some user →
  User.isLocked rt user = false →
  action (login_risk rt req (Js.replace_non_digits phone) m) = Block →
  let p := Js.replace_non_digits phone in
  let risk := login_risk rt req p m in
  let made := [Call_User_findOne p; Call_isLocked;
               Call_calculateRiskScore p (req_ip req)
                 (Js.or_default (body_fingerprint req) "unknown");
               Call_logLoginAttempt (blocked_data req p risk)] in
  login rt req m =
    (Ret (RiskBlocked "Suspicious activity detected. Please verify via OTP again."
                      (flags risk)),
     {| users := users m;
        attempts := recorded rt (blocked_data req p risk) (attempts m);
        calls := calls m ++ made |})
  ∧ LoginAttempt.reason (attempt_of rt (blocked_data req p risk)) = "fraud_detected"
  ∧ LoginAttempt.riskScore (attempt_of rt (blocked_data req p risk)) = score risk.
Proof.
  intros Hp He Hup Hu Hl Hrisk p risk made. subst p risk made.
  split; [|done].
  unfold login, try_catch, bind. rewrite Hp, He.
  rewrite findOne_run, Hup, Hu. unfold called. rewrite Hl.
  rewrite calculateRiskScore_run.
  match goal with
  | |- context [history rt ?p ?x] =>
      change (history rt p x) with (history rt p m)
  end.
  fold (login_risk rt req (Js.replace_non_digits phone) m).
  rewrite Hrisk, logLoginAttempt_run. unfold ret, after_call.
  cbn [users attempts calls]. rewrite <- !app_assoc. reflexivity.
Qed.

(** X16.  An unreachable ledger does not keep a user out.  When the
    ledger can neither be read nor written, a login with the right PIN
    for a user who is found and not locked still succeeds: the answer
    carries the fallback score 10 and the single flag [detection_error],
    the lockout is reset, and the ledger is left as it was. *)
Theorem login_succeeds_without_ledger rt req m phone encryptedMpin user rawMpin :
  ledgerFindDown rt = true →
  ledgerCreateDown rt = true →
  present (body_phone req) = Some phone →
  present (body_encryptedMpin req) = Some encryptedMpin →
  usersDown rt = false →
  users m !! Js.replace_non_digits phone = Some user →
  User.isLocked rt user = false →
  rsaDecrypt encryptedMpin = Ret rawMpin →
  verifyMpin rawMpin (UserDoc.mpinHash user) (UserDoc.mpinSalt user) = Ret true →
  ∃ token stored m',
    login rt req m = (Ret (LoggedIn token (UserDoc.toJSON stored) 10 ["detection_error"]), m')
    ∧ users m' !! UserDoc.phone user = Some stored
    ∧ UserDoc.failedAttempts stored = 0
    ∧ UserDoc.lockedUntil stored = None
    ∧ attempts m' = attempts m.
Proof.
  intros Hfind Hcreate Hp He Hup Hu Hl Hdec Hver.
  assert (login_risk rt req (Js.replace_non_digits phone) m = detection_error) as Hrisk.
  { unfold login_risk. by rewrite Hfind. }
  destruct (login_success_run rt req m phone encryptedMpin user rawMpin
              Hp He Hup Hu Hl) as (made & Hrun & _); [by rewrite Hrisk|done|done|].
  rewrite Hrisk in Hrun. eexists _, _, _. split; [exact Hrun|].
  cbn [users attempts]. split; [apply lookup_insert_eq|].
  repeat split; [done..|].
  apply recorded_rejected. unfold ledger_accepts. by rewrite Hcreate.
Qed.

End LoginSuccessFacts.

(** ** What a login may change in the users collection *)

Lemma same_credentials_refl u : same_credentials u u.
Proof. by repeat split. Qed.

Lemma failure_recorded_same_credentials rt u :
  same_credentials u (User.failure_recorded rt u).
Proof. unfold User.failure_recorded. destruct (5 <=? _); by repeat split. Qed.

Lemma success_recorded_same_credentials rt u ds :
  same_credentials u (User.set_devices (User.success_recorded rt u) ds).
Proof. by repeat split. Qed.

Lemma success_recorded_same_credentials' rt u :
  same_credentials u (User.success_recorded rt u).
Proof. by repeat split. Qed.

(** Saving a document of the same identity over its own entry. *)
Lemma insert_same_credentials (us : gmap string UserDoc.t) p t t' :
  keyed_by_phone us →
  us !! p = Some t →
  same_credentials t t' →
  keyed_by_phone (<[UserDoc.phone t := t']> us)
  ∧ ∀ k, (k = p ∨ <[UserDoc.phone t := t']> us !! k = us !! k)
         ∧ match us !! k with
           | None => <[UserDoc.phone t := t']> us !! k = None
           | Some u =>
               ∃ u', <[UserDoc.phone t := t']> us !! k = Some u'
                     ∧ same_credentials u u'
           end.
Proof.
  intros Hkeys Ht Hsame. rewrite (Hkeys _ _ Ht). split.
  - intros k u. rewrite lookup_insert. case_decide as Hk.
    + intros [= <-]. subst k. destruct Hsame as (_ & -> & _). by apply Hkeys.
    + apply Hkeys.
  - intros k. rewrite lookup_insert. case_decide as Hk.
    + subst k. rewrite Ht. split; [by left|eauto].
    + split; [by right|]. destruct (us !! k) as [u|]; [|done].
      eauto using same_credentials_refl.
Qed.

Lemma keep_same_credentials (us : gmap string UserDoc.t) p :
  keyed_by_phone us →
  keyed_by_phone us
  ∧ ∀ k, (k = p ∨ us !! k = us !! k)
         ∧ match us !! k with
           | None => us !! k = None
           | Some u => ∃ u', us !! k = Some u' ∧ same_credentials u u'
           end.
Proof.
  intros Hkeys. split; [done|]. intros k. split; [by right|].
  destruct (us !! k); eauto using same_credentials_refl.
Qed.

Section LoginStoreFacts.
Context `{Platform}.

(** X17.  Whatever the request and whatever the answer, a login leaves
    the users collection keyed by phone, creates no user and deletes
    none, changes no user but the one whose phone is the normalised phone
    of the request, and leaves the identity, the digest and the salt of
    every user as they were. *)
Theorem login_keeps_credentials rt req m resp m' :
  keyed_by_phone (users m) →
  login rt req m = (Ret resp, m') →
  keyed_by_phone (users m')
  ∧ ∀ k,
      (k = Js.replace_non_digits (default "" (body_phone req))
       ∨ users m' !! k = users m !! k)
      ∧ match users m !! k with
        | None => users m' !! k = None
        | Some u => ∃ u', users m' !! k = Some u' ∧ same_credentials u u'
        end.
Proof.
  intros Hkeys Hrun. unfold login in Hrun.
  destruct (present (body_phone req)) as [phone|] eqn:Hphone.
  2:{ injection Hrun as <- <-.
      by apply (keep_same_credentials _ (Js.replace_non_digits _)). }
  assert (default "" (body_phone req) = phone) as ->.
  { unfold present in Hphone. destruct (body_phone req) as [s|]; [|done].
    by destruct (String.eqb s ""); simplify_eq. }
  run_in Hrun.
  all: try discriminate.
  all: injection Hrun as <- <-.
  all: unfold after_call; cbn [users]; rewrite ?insert_insert_eq.
  all: first
    [ by apply keep_same_credentials
    | by eapply insert_same_credentials;
        eauto using failure_recorded_same_credentials,
                    success_recorded_same_credentials,
                    success_recorded_same_credentials' ].
Qed.

End LoginStoreFacts.

(** ** The register route *)

Section RegisterFacts.
Context `{Platform}.

(** The document the register route creates. *)
Lemma register_inversion rt req m token userJson m' :
  register rt req m = (Ret (Registered token userJson), m') →
  ∃ phone encryptedMpin rawMpin stored,
    present (body_phone req) = Some phone
    ∧ present (body_encryptedMpin req) = Some encryptedMpin
    ∧ rsaDecrypt encryptedMpin = Ret rawMpin
    ∧ Js.test_mpin_format rawMpin = true
    ∧ usersDown rt = false
    ∧ UserDoc.validate stored = true
    ∧ users m !! Js.replace_non_digits phone = None
    ∧ users m' = <[Js.replace_non_digits phone := stored]> (users m)
    ∧ attempts m' =
        recorded rt (registered_data req (Js.replace_non_digits phone)) (attempts m)
    ∧ userJson = UserDoc.toJSON stored
    ∧ token = generateToken rt (UserDoc._id stored) (Js.replace_non_digits phone)
    ∧ UserDoc.phone stored = Js.replace_non_digits phone
    ∧ UserDoc.mpinSalt stored = generateSalt rt
    ∧ UserDoc.mpinHash stored = sha512Hash rawMpin (generateSalt rt)
    ∧ UserDoc.failedAttempts stored = 0
    ∧ UserDoc.lockedUntil stored = None
    ∧ UserDoc.devices stored =
        match present (body_fingerprint req) with
        | Some fp => [new_device rt req fp]
        | None => []
        end.
Proof.
  intros Hrun. unfold register in Hrun.
  run_in Hrun.
  all: try discriminate.
  all: injection Hrun as <- <- <-.
  all: eexists _, _, _, _.
  all: repeat (split; [first [reflexivity | eassumption
                            | by apply negb_false_iff | by apply negb_true_iff]|]).
  all: cbn [UserDoc.devices]; reflexivity.
Qed.

(** X18.  A registration that succeeds has stored exactly one new user,
    under the normalised phone, which has 10 to 15 digits and was not
    registered before; the PIN it took has exactly 4 or 6 digits; the new
    user has no failures and no lock; and the stored digest and salt
    verify the PIN that was registered. *)
Theorem register_stores_verifiable_credential rt req m token userJson m' :
  register rt req m = (Ret (Registered token userJson), m') →
  ∃ phone encryptedMpin rawMpin stored,
    present (body_phone req) = Some phone
    ∧ present (body_encryptedMpin req) = Some encryptedMpin
    ∧ rsaDecrypt encryptedMpin = Ret rawMpin
    ∧ Js.test_mpin_format rawMpin = true
    ∧ Js.test_phone_format (Js.replace_non_digits phone) = true
    ∧ users m !! Js.replace_non_digits phone = None
    ∧ users m' = <[Js.replace_non_digits phone := stored]> (users m)
    ∧ UserDoc.phone stored = Js.replace_non_digits phone
    ∧ UserDoc.failedAttempts stored = 0
    ∧ UserDoc.lockedUntil stored = None
    ∧ verifyMpin rawMpin (UserDoc.mpinHash stored) (UserDoc.mpinSalt stored)
      = Ret true
    ∧ userJson = UserDoc.toJSON stored.
Proof.
  intros Hrun.
  destruct (register_inversion _ _ _ _ _ _ Hrun)
    as (phone & enc & raw & stored & Hp & He & Hdec & Hfmt & _ & Hvalid & Hnew
        & Husers & _ & Hjson & _ & Hphone & Hsalt & Hhash & Hfa & Hlock & _).
  exists phone, enc, raw, stored. repeat split; try done.
  - unfold UserDoc.validate in Hvalid. rewrite Hphone in Hvalid.
    by do 4 (apply andb_true_iff in Hvalid as [Hvalid _]).
  - rewrite Hhash, Hsalt. unfold verifyMpin. apply timingSafeEqual_refl.
Qed.

(** X19.  The register route writes only when it answers 201: with any
    other answer (missing fields, already registered, invalid ciphertext,
    invalid PIN format, server error) the users collection and the ledger
    are exactly as before. *)
Theorem register_refusals_store_nothing rt req m resp m' :
  register rt req m = (Ret resp, m') →
  response_user resp = None →
  users m' = users m ∧ attempts m' = attempts m.
Proof.
  intros Hrun Hnone. unfold register in Hrun.
  run_in Hrun.
  all: try discriminate.
  all: injection Hrun as <- <-.
  all: cbn in Hnone; try discriminate.
  all: done.
Qed.

(** X20.  Registering a phone that is registered, in whatever spelling
    that normalises to it, is refused with "already registered" after the
    lookup alone: the stored user is not altered, nothing is decrypted and
    nothing is logged.  In particular a second registration right after a
    successful one is refused and leaves the first record as it is. *)
Theorem register_twice_refused rt req m token userJson m1 rt' req' phone' enc' :
  register rt req m = (Ret (Registered token userJson), m1) →
  present (body_phone req') = Some phone' →
  present (body_encryptedMpin req') = Some enc' →
  Js.replace_non_digits phone'
    = Js.replace_non_digits (default "" (body_phone req)) →
  usersDown rt' = false →
  register rt' req' m1 =
    (Ret (AlreadyRegistered "User already registered. Please login instead."),
     after_call m1 (Call_User_findOne (Js.replace_non_digits phone'))).
Proof.
  intros Hrun Hp' He' Hsame Hup'.
  destruct (register_inversion _ _ _ _ _ _ Hrun)
    as (phone & enc & raw & stored & Hp & _ & _ & _ & _ & _ & _ & Husers & _).
  assert (default "" (body_phone req) = phone) as Hphone.
  { unfold present in Hp. destruct (body_phone req) as [s|]; [|done].
    by destruct (String.eqb s ""); simplify_eq. }
  rewrite Hphone in Hsame.
  unfold register, try_catch, bind. rewrite Hp', He', findOne_run, Hup'.
  rewrite Husers, Hsame, lookup_insert_eq. reflexivity.
Qed.

End RegisterFacts.

(** ** The verify-otp route *)

Section VerifyOtpFacts.
Context `{Platform}.

(** X21.  When the verify-otp route answers that the OTP is verified, the
    phone it returns is the digits of the phone it was given, between 10
    and 15 of them, and normalising it again changes nothing; [isNewUser]
    is true exactly when no user is stored under that phone; and the
    route has written nothing. *)
Theorem verify_otp_answer rt req m isNewUser phone message m' :
  verify_otp rt req m = (Ret (OtpVerified isNewUser phone message), m') →
  phone = Js.replace_non_digits (default "" (body_phone req))
  ∧ Js.test_phone_format phone = true
  ∧ Js.replace_non_digits phone = phone
  ∧ (isNewUser = true ↔ users m !! phone = None)
  ∧ users m' = users m
  ∧ attempts m' = attempts m.
Proof.
  intros Hrun. unfold verify_otp in Hrun.
  destruct (present (body_phone req)) as [given|] eqn:Hgiven.
  2:{ unfold try_catch, ret in Hrun. discriminate. }
  assert (default "" (body_phone req) = given) as ->.
  { unfold present in Hgiven. destruct (body_phone req) as [s|]; [|done].
    by destruct (String.eqb s ""); simplify_eq. }
  run_in Hrun.
  all: try discriminate.
  all: injection Hrun as <- <- <- <-.
  all: match goal with
       | Hlen : (_ <? 10) || (15 <? _) = false |- _ =>
           apply orb_false_iff in Hlen as [Hlo%Z.ltb_ge Hhi%Z.ltb_ge]
       end.
  all: split; [reflexivity|].
  all: split;
    [unfold Js.test_phone_format;
     rewrite replace_non_digits_all_digits;
     apply andb_true_iff; split; [by apply Z.leb_le|by apply Z.leb_le]|].
  all: split;
    [apply replace_non_digits_fixes_digits, replace_non_digits_all_digits|].
  all: cbn [users attempts after_call].
  all: split; [|done].
  - match goal with
    | Hu : bool_decide _ = true |- _ =>
        apply bool_decide_eq_true in Hu as [u Hu]; rewrite Hu
    end.
    done.
  - match goal with
    | Hu : bool_decide _ = false |- _ =>
        apply bool_decide_eq_false, eq_None_not_Some in Hu; rewrite Hu
    end.
    done.
Qed.

End VerifyOtpFacts.

(** ** Registering and then logging in *)

Lemma query_other_phones phone since n rows :
  Forall (λ a, LoginAttempt.phone a ≠ phone) rows →
  Ledger.query phone since n rows = [].
Proof.
  intros Hrows. unfold Ledger.query.
  replace (List.filter _ rows) with (@nil LoginAttempt.t); [apply take_nil|].
  symmetry. induction Hrows as [|a rows Ha _ IH]; [done|].
  cbn [List.filter]. rewrite IH.
  apply String.eqb_neq in Ha. by rewrite Ha.
Qed.

Lemma query_fresh_row phone since n rows row :
  Forall (λ a, LoginAttempt.phone a ≠ phone) rows →
  LoginAttempt.phone row = phone →
  since ≤ LoginAttempt.timestamp row →
  Ledger.query phone since (S n) (rows ++ [row]) = [row].
Proof.
  intros Hrows Hphone Hsince. unfold Ledger.query.
  rewrite List.filter_app.
  replace (List.filter _ rows) with (@nil LoginAttempt.t).
  - cbn [app List.filter]. apply String.eqb_eq in Hphone. apply Z.leb_le in Hsince.
    rewrite Hphone, Hsince. cbn. by rewrite take_nil.
  - symmetry. induction Hrows as [|a rows Ha _ IH]; [done|].
    cbn [List.filter]. rewrite IH.
    apply String.eqb_neq in Ha. by rewrite Ha.
Qed.

Lemma or_default_unknown_twice v :
  Js.or_default (Some (Js.or_default v "unknown")) "unknown"
    = Js.or_default v "unknown".
Proof.
  destruct v as [s|]; [|done]. cbn [Js.or_default].
  destruct (String.eqb s "") eqn:Hs; [done|]. by rewrite Hs.
Qed.

(** The assessment of a login that follows a registration at once. *)
Lemma assess_after_registration rt row currentIp fingerprint :
  LoginAttempt.success row = true →
  LoginAttempt.ip row = currentIp →
  LoginAttempt.fingerprint row = fingerprint →
  action (assess rt [row] currentIp fingerprint) = Allow
  ∧ score (assess rt [row] currentIp fingerprint) ≤ 10.
Proof.
  intros Hok Hip Hfp.
  assert (sees_new_ip [row] currentIp = false) as Hnewip.
  { apply known_ip_not_new. unfold successful_ips. cbn [List.filter].
    rewrite Hok, <- Hip. apply list_elem_of_here. }
  assert (sees_new_device [row] fingerprint = false) as Hnewfp.
  { apply known_device_not_new. unfold successful_fingerprints. cbn [List.filter].
    rewrite Hok, <- Hfp. apply list_elem_of_here. }
  assert (sees_rapid_attempts rt [row] = false) as Hrapid.
  { unfold sees_rapid_attempts, rapid_rows. cbn [List.filter].
    by destruct (_ <=? _). }
  assert (sees_high_failure_rate [row] = false) as Hrate.
  { unfold sees_high_failure_rate. cbn [List.filter]. by rewrite Hok. }
  rewrite assess_by_tests, Hnewip, Hnewfp, Hrapid, Hrate.
  destruct (sees_unusual_hour rt); by vm_compute.
Qed.

Lemma assess_empty_allowed rt currentIp fingerprint :
  action (assess rt [] currentIp fingerprint) = Allow
  ∧ score (assess rt [] currentIp fingerprint) ≤ 15.
Proof.
  rewrite assess_by_tests. destruct (sees_unusual_hour rt); by vm_compute.
Qed.

Section RegisterLoginFacts.
Context `{Platform}.

(** X22.  Registering and then logging in composes.  When the ledger has
    no row for the phone and a registration succeeds, a login with the
    same request, handled at once, succeeds too: the new user is not
    locked, the stored digest verifies the PIN, and the scorer allows the
    login with a score of at most 15, whether the ledger took the
    registration's record, rejected it or cannot be read. *)
Theorem register_then_login rt req m token userJson m1 :
  Forall (λ a, LoginAttempt.phone a
               ≠ Js.replace_non_digits (default "" (body_phone req)))
         (attempts m) →
  register rt req m = (Ret (Registered token userJson), m1) →
  ∃ token' userJson' riskScore riskFlags m2,
    login rt req m1 = (Ret (LoggedIn token' userJson' riskScore riskFlags), m2)
    ∧ riskScore ≤ 15.
Proof.
  intros Hfresh Hrun.
  destruct (register_inversion _ _ _ _ _ _ Hrun)
    as (phone & enc & raw & stored & Hp & He & Hdec & _ & Hup & _ & _
        & Husers & Hattempts & _ & _ & _ & Hsalt & Hhash & _ & Hlock & _).
  assert (default "" (body_phone req) = phone) as Hphone.
  { unfold present in Hp. destruct (body_phone req) as [s|]; [|done].
    by destruct (String.eqb s ""); simplify_eq. }
  rewrite Hphone in Hfresh.
  set (p := Js.replace_non_digits phone) in *.
  assert (action (login_risk rt req p m1) ≠ Block
          ∧ score (login_risk rt req p m1) ≤ 15) as [Hrisk Hscore].
  { unfold login_risk. destruct (ledgerFindDown rt); [split; [done|by vm_compute]|].
    unfold history. rewrite Hattempts. unfold recorded.
    destruct (ledger_accepts rt _).
    - rewrite query_fresh_row; [|done|done|cbn; lia].
      destruct (assess_after_registration rt
                  (attempt_of rt (registered_data req p)) (req_ip req)
                  (Js.or_default (body_fingerprint req) "unknown")) as [-> Hle];
        [done|done|apply or_default_unknown_twice|].
      split; [done|lia].
    - rewrite query_other_phones by done.
      destruct (assess_empty_allowed rt (req_ip req)
                  (Js.or_default (body_fingerprint req) "unknown")) as [-> Hle].
      done. }
  destruct (login_success_run rt req m1 phone enc stored raw)
    as (made & Hlogin & _); try done.
  - fold p. rewrite Husers. apply lookup_insert_eq.
  - unfold User.isLocked. by rewrite Hlock.
  - rewrite Hhash, Hsalt. unfold verifyMpin. apply timingSafeEqual_refl.
  - eauto 10.
Qed.

End RegisterLoginFacts.

(** ** The authentication middleware *)

Section AuthFacts.
Context `{TokenVerifier}.

(** X23.  A header that starts with "Bearer " decides alone: the
    middleware answers the same whatever the cookie holds.  A bearer
    token that does not verify, or an empty one, is therefore refused even
    when the cookie carries a valid token. *)
Theorem authMiddleware_bearer_ignores_cookie authHeader cookie cookie' :
  JsString.startsWith authHeader "Bearer " = true →
  authMiddleware {| header_authorization := Some authHeader;
                    cookie_smartbank_token := cookie |}
  = authMiddleware {| header_authorization := Some authHeader;
                      cookie_smartbank_token := cookie' |}
  ∧ (verifyToken (JsString.substring_from 7 authHeader) = None →
     ∃ message,
       authMiddleware {| header_authorization := Some authHeader;
                         cookie_smartbank_token := cookie |}
       = Unauthorized message).
Proof.
  intros Hbearer.
  assert (present (Some authHeader) = Some authHeader) as Hpresent.
  { unfold present. destruct authHeader; [done|done]. }
  unfold authMiddleware, bearer_or_cookie. cbn [header_authorization].
  rewrite Hpresent, Hbearer. split; [done|]. intros Hbad.
  destruct (present (Some (JsString.substring_from 7 authHeader))) as [token|] eqn:Htoken;
    [|eauto].
  assert (token = JsString.substring_from 7 authHeader) as ->.
  { unfold present in Htoken. by destruct (String.eqb _ ""); simplify_eq. }
  rewrite Hbad. eauto.
Qed.

(** X24.  The middleware passes a request on only with the claims that
    [verifyToken] returned for a token that is not empty and that the
    request really carried: the rest of a "Bearer " header, or the cookie
    when there is no such header. *)
Theorem authMiddleware_passes_verified_only req user :
  authMiddleware req = Next user →
  ∃ token,
    token ≠ ""
    ∧ verifyToken token = Some user
    ∧ ((∃ authHeader,
          header_authorization req = Some authHeader
          ∧ JsString.startsWith authHeader "Bearer " = true
          ∧ token = JsString.substring_from 7 authHeader)
       ∨ (cookie_smartbank_token req = Some token
          ∧ ∀ authHeader, header_authorization req = Some authHeader →
              authHeader = "" ∨ JsString.startsWith authHeader "Bearer " = false)).
Proof.
  unfold authMiddleware. intros Hnext.
  destruct (present (bearer_or_cookie req)) as [token|] eqn:Htoken; [|done].
  destruct (verifyToken token) as [decoded|] eqn:Hverify; [|done].
  injection Hnext as ->. exists token.
  assert (∀ v t, present v = Some t → v = Some t ∧ t ≠ "") as Hpresent.
  { intros [s|] t; unfold present; [|done].
    destruct (String.eqb s "") eqn:Hs; [done|].
    intros [= <-]. by apply String.eqb_neq in Hs. }
  apply Hpresent in Htoken as [Hpick Hne]. split; [done|]. split; [done|].
  unfold bearer_or_cookie in Hpick.
  destruct (present (header_authorization req)) as [authHeader|] eqn:Hheader.
  - apply Hpresent in Hheader as [Hheader _].
    destruct (JsString.startsWith authHeader "Bearer ") eqn:Hbearer.
    + left. exists authHeader. by simplify_eq.
    + right. apply Hpresent in Hpick as [Hcookie _]. split; [done|].
      intros h Hh. right. congruence.
  - right. apply Hpresent in Hpick as [Hcookie _]. split; [done|].
    intros h Hh. left. rewrite Hh in Hheader. unfold present in Hheader.
    destruct (String.eqb h "") eqn:Hempty; [by apply String.eqb_eq|done].
Qed.

End AuthFacts.

Lemma authMiddleware_bearer_ignores_cookie_witness :
  @authMiddleware SampleTokens.verifier {| header_authorization := Some "Bearer stale";
                    cookie_smartbank_token := Some "jwt.alice" |}
  = authMiddleware {| header_authorization := Some "Bearer stale";
                      cookie_smartbank_token := None |}
  ∧ (verifyToken (JsString.substring_from 7 "Bearer stale") = None →
     ∃ message,
       authMiddleware {| header_authorization := Some "Bearer stale";
                         cookie_smartbank_token := Some "jwt.alice" |}
       = Unauthorized message).
Proof.
  apply (@authMiddleware_bearer_ignores_cookie SampleTokens.verifier "Bearer stale"
           (Some "jwt.alice") None).
  reflexivity.
Defined.

Lemma authMiddleware_passes_verified_only_witness :
  ∃ token : string,
    token ≠ ""
    ∧ @verifyToken SampleTokens.verifier token = Some "alice"
    ∧ ((∃ authHeader,
          header_authorization
            {| header_authorization := None;
               cookie_smartbank_token := Some "jwt.alice" |} = Some authHeader
          ∧ JsString.startsWith authHeader "Bearer " = true
          ∧ token = JsString.substring_from 7 authHeader)
       ∨ (cookie_smartbank_token
            {| header_authorization := None;
               cookie_smartbank_token := Some "jwt.alice" |} = Some token
          ∧ ∀ authHeader,
              header_authorization
                {| header_authorization := None;
                   cookie_smartbank_token := Some "jwt.alice" |} = Some authHeader →
              authHeader = "" ∨ JsString.startsWith authHeader "Bearer " = false)).
Proof.
  apply (@authMiddleware_passes_verified_only SampleTokens.verifier
           {| header_authorization := None;
              cookie_smartbank_token := Some "jwt.alice" |} "alice").
  reflexivity.
Defined.

(** ** The rate limiter's key and the identity of a login *)

Lemma append_inj_l (s a b : string) : s +:+ a = s +:+ b → a = b.
Proof. induction s as [|c s IH]; cbn; [done|]. intros [= Hab]. by apply IH. Qed.

Section RateKeyFacts.
Context `{Platform}.

(** X25.  The rate limiter counts by IP and phone as the phone was sent,
    while the login route identifies the user by the digits of the phone.
    Two different spellings of one phone number, sent from one IP, are
    therefore handled by the login route in exactly the same way, but
    they are counted under two different rate-limit keys. *)
Theorem spellings_share_login_not_rate_key rt req m phone phone' :
  phone ≠ "" →
  phone' ≠ "" →
  phone ≠ phone' →
  Js.replace_non_digits phone = Js.replace_non_digits phone' →
  login rt (with_phone req phone) m = login rt (with_phone req phone') m
  ∧ keyGenerator (with_phone req phone) ≠ keyGenerator (with_phone req phone').
Proof.
  intros Hp%String.eqb_neq Hp'%String.eqb_neq Hne Hsame.
  assert (present (Some phone) = Some phone) as Hpresent
    by (unfold present; by rewrite Hp).
  assert (present (Some phone') = Some phone') as Hpresent'
    by (unfold present; by rewrite Hp').
  clear Hp Hp'. rename Hpresent into Hp, Hpresent' into Hp'. split.
  - unfold login. cbn [body_phone body_encryptedMpin body_fingerprint req_ip
      header_user_agent with_phone]. rewrite Hp, Hp', Hsame. reflexivity.
  - unfold keyGenerator. cbn [body_phone req_ip with_phone]. rewrite Hp, Hp'.
    intros Hkey. apply append_inj_l, append_inj_l in Hkey. done.
Qed.

End RateKeyFacts.

Lemma spellings_share_login_not_rate_key_witness :
  login Demo.rt (with_phone (Demo.request "" "enc:0000") "9876543210") (Demo.mem 0 None)
  = login Demo.rt (with_phone (Demo.request "" "enc:0000") "98765 43210")
          (Demo.mem 0 None)
  ∧ keyGenerator (with_phone (Demo.request "" "enc:0000") "9876543210")
    ≠ keyGenerator (with_phone (Demo.request "" "enc:0000") "98765 43210").
Proof.
  apply (spellings_share_login_not_rate_key Demo.rt (Demo.request "" "enc:0000")
           (Demo.mem 0 None) "9876543210" "98765 43210"); done.
Defined.

(** ** The categoriser *)

Lemma startsWith_spec (s p : string) :
  JsString.startsWith s p = true ↔ ∃ post, s = p +:+ post.
Proof.
  revert s. induction p as [|a p IH]; intros s.
  - split; [intros _; by exists s|intros _; by destruct s].
  - destruct s as [|b s]; cbn [JsString.startsWith].
    + split; [done|]. by intros [post ?].
    + rewrite andb_true_iff, Ascii.eqb_eq, IH. split.
      * intros [-> [post ->]]. by exists post.
      * intros [post [= -> ->]]. eauto.
Qed.

Lemma includes_cons (c : ascii) (s sub : string) :
  JsString.includes (String c s) sub
  = JsString.startsWith (String c s) sub || JsString.includes s sub.
Proof. reflexivity. Qed.

Lemma includes_spec (s sub : string) :
  JsString.includes s sub = true ↔ ∃ pre post, s = pre +:+ sub +:+ post.
Proof.
  split.
  - induction s as [|c s IH]; cbn [JsString.includes];
      rewrite orb_true_iff, startsWith_spec.
    + intros [[post ->]|?]; [by exists "", post|done].
    + intros [[post ->]|Hin]; [by exists "", post|].
      destruct (IH Hin) as (pre & post & ->). by exists (String c pre), post.
  - intros (pre & post & ->). induction pre as [|c pre IH].
    + cbn [String.append]. destruct (sub +:+ post) eqn:Heq;
        cbn [JsString.includes]; apply orb_true_iff; left;
        apply startsWith_spec; exists post; by rewrite Heq.
    + change (String c pre +:+ sub +:+ post)
        with (String c (pre +:+ sub +:+ post)).
      rewrite includes_cons, IH. apply orb_true_r.
Qed.

Lemma string_app_assoc (a b c : string) : (a +:+ b) +:+ c = a +:+ (b +:+ c).
Proof.
  induction a as [|x a IH]; [done|].
  change (String x ((a +:+ b) +:+ c) = String x (a +:+ (b +:+ c))).
  by rewrite IH.
Qed.

Lemma includes_trans (s k k' : string) :
  JsString.includes s k = true → JsString.includes k k' = true →
  JsString.includes s k' = true.
Proof.
  rewrite !includes_spec. intros (pre & post & ->) (pre' & post' & ->).
  exists (pre +:+ pre'), (post' +:+ post). by rewrite !string_app_assoc.
Qed.

Lemma find_keyword_app lower ks ks' :
  Categorizer.find_keyword lower (ks ++ ks') =
    match Categorizer.find_keyword lower ks with
    | Some k => Some k
    | None => Categorizer.find_keyword lower ks'
    end.
Proof.
  induction ks as [|k ks IH]; cbn [app Categorizer.find_keyword]; [done|].
  by destruct (JsString.includes lower k).
Qed.

Lemma find_keyword_first lower ks k :
  Categorizer.find_keyword lower ks = Some k →
  k ∈ ks
  ∧ JsString.includes lower k = true
  ∧ ∀ k', k' ∈ Categorizer.visited_before k ks → JsString.includes lower k' = false.
Proof.
  induction ks as [|k0 ks IH]; cbn [Categorizer.find_keyword Categorizer.visited_before];
    [done|].
  destruct (JsString.includes lower k0) eqn:Hk0.
  - intros [= <-]. rewrite String.eqb_refl. split; [apply list_elem_of_here|].
    split; [done|]. intros k' Hk'. by apply elem_of_nil in Hk'.
  - intros Hfind. destruct (IH Hfind) as (Hin & Hinc & Hbefore).
    split; [by apply list_elem_of_further|]. split; [done|].
    destruct (String.eqb k0 k); intros k' Hk'; [by apply elem_of_nil in Hk'|].
    apply elem_of_cons in Hk' as [->|Hk']; [done|by apply Hbefore].
Qed.

Lemma find_keyword_none lower ks :
  Categorizer.find_keyword lower ks = None →
  ∀ k, k ∈ ks → JsString.includes lower k = false.
Proof.
  induction ks as [|k0 ks IH]; cbn [Categorizer.find_keyword];
    [intros _ k Hk; by apply elem_of_nil in Hk|].
  destruct (JsString.includes lower k0) eqn:Hk0; [done|].
  intros Hnone k [->|Hk]%elem_of_cons; [done|by apply IH].
Qed.

Lemma find_category_flat lower entries :
  Categorizer.find_keyword lower (flat_map snd entries)
  = snd <$> Categorizer.find_category lower entries.
Proof.
  induction entries as [|[c ks] entries IH];
    cbn [flat_map Categorizer.find_category snd]; [done|].
  rewrite find_keyword_app. by destruct (Categorizer.find_keyword lower ks).
Qed.

Lemma find_category_entry lower entries c k :
  Categorizer.find_category lower entries = Some (c, k) →
  ∃ ks, (c, ks) ∈ entries ∧ k ∈ ks.
Proof.
  induction entries as [|[c0 ks0] entries IH]; cbn [Categorizer.find_category];
    [done|].
  destruct (Categorizer.find_keyword lower ks0) as [k0|] eqn:Hk0.
  - intros [= <- <-]. exists ks0. split; [apply list_elem_of_here|].
    by apply find_keyword_first in Hk0 as [? _].
  - intros Hfind. destruct (IH Hfind) as (ks & Hin & Hk).
    exists ks. split; [by apply list_elem_of_further|done].
Qed.

Section CategorizeFacts.
Context `{Text}.

(** X26.  [categorize] answers either with a category of the table, one
    of its keywords, confidence 0.85 and the AI mark, where that keyword
    really occurs in the trimmed lower-case description; or, exactly when
    the description is missing or contains no keyword of the table at
    all, with "other", confidence 0 and no mark.  In both cases the
    category is one that [getCategories] describes. *)
Theorem categorize_answer (description : option string) :
  let r := Categorizer.categorize description in
  let lower := trim (toLowerCase (default "" description)) in
  Categorizer.category r ∈ map fst Categorizer.getCategories
  ∧ ((Categorizer.aiCategorized r = true
      ∧ Categorizer.confidence r = 85
      ∧ ∃ k ks,
          Categorizer.matchedKeyword r = Some k
          ∧ (Categorizer.category r, ks) ∈ Categorizer.CATEGORY_MAP
          ∧ k ∈ ks
          ∧ JsString.includes lower k = true)
     ∨ (r = Categorizer.other
        ∧ (present description = None
           ∨ ∀ k, k ∈ Categorizer.all_keywords → JsString.includes lower k = false))).
Proof.
  intros r lower. subst r lower. unfold Categorizer.categorize.
  destruct (present description) as [d|] eqn:Hd.
  2:{ split; [compute_done|]. right. split; [done|by left]. }
  assert (default "" description = d) as ->.
  { unfold present in Hd. destruct description as [s|]; [|done].
    by destruct (String.eqb s ""); simplify_eq. }
  set (lower := trim (toLowerCase d)).
  destruct (Categorizer.find_category lower Categorizer.CATEGORY_MAP)
    as [[c k]|] eqn:Hfind.
  - destruct (find_category_entry _ _ _ _ Hfind) as (ks & Hentry & Hk).
    pose proof (find_category_flat lower Categorizer.CATEGORY_MAP) as Hflat.
    rewrite Hfind in Hflat. change (snd <$> Some (c, k)) with (Some k) in Hflat.
    apply find_keyword_first in Hflat as (_ & Hinc & _).
    cbn [Categorizer.category Categorizer.aiCategorized Categorizer.confidence
         Categorizer.matchedKeyword].
    split.
    + assert (c ∈ map fst Categorizer.CATEGORY_MAP) as Hc
        by (apply list_elem_of_fmap; by exists (c, ks)).
      revert Hc. generalize c. apply Forall_forall. compute_done.
    + left. repeat split; [done..|]. eauto 10.
  - split; [compute_done|]. right. split; [done|]. right.
    pose proof (find_category_flat lower Categorizer.CATEGORY_MAP) as Hflat.
    rewrite Hfind in Hflat. by apply find_keyword_none.
Qed.

(** X27.  The first keyword that occurs wins, so a keyword that contains
    a keyword visited before it can never be the matched one.  Ten
    keywords of the table are shadowed in this way and are never
    returned: a description with "amazon prime" is matched by "amazon"
    (shopping, not entertainment), one with "hotel booking" by "hotel"
    (food, not travel), one with "vistara" by "vi" (recharge, not travel)
    at the latest. *)
Theorem categorize_never_matches_shadowed (description : option string) (k : string) :
  Categorizer.matchedKeyword (Categorizer.categorize description) = Some k →
  Categorizer.shadowed k = false
  ∧ k ∉ ["dmart"; "jiomart"; "hindustan petroleum"; "bharat petroleum";
         "amazon prime"; "jio cinema"; "bitcoin"; "hotel booking"; "vistara";
         "coursera"].
Proof.
  intros Hmatched.
  assert (Categorizer.shadowed k = false) as Hk.
  { unfold Categorizer.categorize in Hmatched.
    destruct (present description) as [d|]; [|done].
    set (lower := trim (toLowerCase d)) in *.
    pose proof (find_category_flat lower Categorizer.CATEGORY_MAP) as Hflat.
    destruct (Categorizer.find_category lower Categorizer.CATEGORY_MAP)
      as [[c k0]|]; [|done].
    cbn [Categorizer.matchedKeyword] in Hmatched. injection Hmatched as ->.
    change (snd <$> Some (c, k)) with (Some k) in Hflat.
    apply find_keyword_first in Hflat as (_ & Hinc & Hbefore).
    apply not_true_is_false. unfold Categorizer.shadowed.
    rewrite existsb_exists. intros (k' & Hin & Hsub).
    apply list_elem_of_In, Hbefore in Hin.
    by rewrite (includes_trans lower k k' Hinc Hsub) in Hin. }
  split; [done|]. intros Hin.
  assert (Forall (λ k, Categorizer.shadowed k = true)
            ["dmart"; "jiomart"; "hindustan petroleum"; "bharat petroleum";
             "amazon prime"; "jio cinema"; "bitcoin"; "hotel booking"; "vistara";
             "coursera"]) as Hall by (repeat constructor).
  rewrite Forall_forall in Hall. specialize (Hall k Hin). congruence.
Qed.

End CategorizeFacts.

Lemma categorize_never_matches_shadowed_witness :
  Categorizer.shadowed "amazon" = false
  ∧ "amazon" ∉ ["dmart"; "jiomart"; "hindustan petroleum"; "bharat petroleum";
                "amazon prime"; "jio cinema"; "bitcoin"; "hotel booking";
                "vistara"; "coursera"].
Proof.
  apply (@categorize_never_matches_shadowed ascii_text
           (Some "Amazon Prime Video") "amazon").
  by vm_compute.
Defined.

(** ** The further properties at concrete requests *)

Lemma login_success_resets_lockout_witness :
  ∃ stored,
    UserDoc.failedAttempts stored = 0
    ∧ UserDoc.lockedUntil stored = None
    ∧ UserDoc.lastLogin stored = Some (now Demo.rt)
    ∧ UserDoc.mpinHash stored = UserDoc.mpinHash (Demo.alice 3 None).
Proof.
  destruct (login_success_resets_lockout Demo.rt
              (Demo.request "9876543210" "enc:1234") (Demo.mem 3 None)
              "9876543210" "enc:1234" (Demo.alice 3 None) "1234")
    as (stored & m' & _ & _ & Hfa & Hlock & Hlast & Hhash & _);
    [reflexivity|reflexivity|reflexivity|reflexivity|reflexivity
    |by vm_compute|reflexivity|by vm_compute|].
  exists stored. done.
Defined.

Lemma login_success_binds_device_witness :
  ∃ stored,
    map Device.fingerprint (UserDoc.devices stored) = ["fp-1"]
    ∧ map Device.trusted (UserDoc.devices stored) = [true].
Proof.
  destruct (login_success_binds_device Demo.rt
              (Demo.request "9876543210" "enc:1234") (Demo.mem 3 None)
              "9876543210" "enc:1234" (Demo.alice 3 None) "1234")
    as (resp & m' & stored & _ & _ & Hfps & Htrust & _);
    [reflexivity|reflexivity|reflexivity|reflexivity|reflexivity
    |by vm_compute|reflexivity|by vm_compute|].
  exists stored. split; [exact Hfps|exact Htrust].
Defined.

Lemma login_risk_blocked_witness :
  ∃ message riskFlags,
    (login Demo.rt (Sample.request "10.0.0.7" "fp-7" "enc:1234")
           (Sample.mem Sample.busy_rows)).1
    = Ret (RiskBlocked message riskFlags).
Proof.
  destruct (login_risk_blocked Demo.rt (Sample.request "10.0.0.7" "fp-7" "enc:1234")
              (Sample.mem Sample.busy_rows) "9876543210" "enc:1234"
              (Demo.alice 0 None)) as [Hrun _];
    [reflexivity|reflexivity|reflexivity|reflexivity|reflexivity|by vm_compute|].
  eexists _, _. rewrite Hrun. reflexivity.
Defined.

Lemma login_succeeds_without_ledger_witness :
  ∃ token stored m',
    login (Demo.runtime false true true) (Demo.request "9876543210" "enc:1234")
          (Demo.mem 2 None)
    = (Ret (LoggedIn token (UserDoc.toJSON stored) 10 ["detection_error"]), m')
    ∧ users m' !! UserDoc.phone (Demo.alice 2 None) = Some stored
    ∧ UserDoc.failedAttempts stored = 0
    ∧ UserDoc.lockedUntil stored = None
    ∧ attempts m' = attempts (Demo.mem 2 None).
Proof.
  apply (login_succeeds_without_ledger (Demo.runtime false true true)
           (Demo.request "9876543210" "enc:1234") (Demo.mem 2 None)
           "9876543210" "enc:1234" (Demo.alice 2 None) "1234");
    first [reflexivity | by vm_compute].
Defined.

Lemma demo_keyed_by_phone failures locked :
  keyed_by_phone (users (Demo.mem failures locked)).
Proof.
  intros k u. cbn [users Demo.mem]. rewrite lookup_singleton_Some.
  by intros [<- <-].
Qed.

Lemma login_keeps_credentials_witness :
  keyed_by_phone
    (users (login Demo.rt (Demo.request "9876543210" "enc:0000") (Demo.mem 4 None)).2).
Proof.
  eapply (login_keeps_credentials Demo.rt (Demo.request "9876543210" "enc:0000")
            (Demo.mem 4 None)).
  - apply demo_keyed_by_phone.
  - vm_compute. reflexivity.
Defined.

Lemma register_stores_verifiable_credential_witness :
  ∃ rawMpin stored,
    Js.test_mpin_format rawMpin = true
    ∧ UserDoc.phone stored = "919876543211"
    ∧ verifyMpin rawMpin (UserDoc.mpinHash stored) (UserDoc.mpinSalt stored)
      = Ret true.
Proof.
  edestruct (register_stores_verifiable_credential Demo.rt
               (Demo.request "+91 (98765) 43211" "enc:1234") (Demo.mem 0 None))
    as (phone & enc & raw & stored & Hp & _ & _ & Hfmt & _ & _ & _ & Hphone
        & _ & _ & Hver & _);
    [vm_compute; reflexivity|].
  exists raw, stored. injection Hp as <-. repeat split; [done| |done].
  rewrite Hphone. by vm_compute.
Defined.

Lemma register_refusals_store_nothing_witness :
  users (register Demo.rt (Demo.request "9876543211" "enc:12345")
                  (Demo.mem 0 None)).2
  = users (Demo.mem 0 None).
Proof.
  eapply proj1, (register_refusals_store_nothing Demo.rt
                   (Demo.request "9876543211" "enc:12345") (Demo.mem 0 None)).
  - vm_compute. reflexivity.
  - reflexivity.
Defined.

Lemma register_twice_refused_witness :
  ∃ m1,
    (register Demo.rt (Demo.request "9876543211" "enc:1234") (Demo.mem 0 None)).2
    = m1
    ∧ (register Demo.rt (Demo.request "+98 765 43211" "enc:4321") m1).1
      = Ret (AlreadyRegistered "User already registered. Please login instead.").
Proof.
  eexists. split; [vm_compute; reflexivity|].
  erewrite (register_twice_refused Demo.rt
              (Demo.request "9876543211" "enc:1234") (Demo.mem 0 None)
              _ _ _ Demo.rt (Demo.request "+98 765 43211" "enc:4321")
              "+98 765 43211" "enc:4321");
    [reflexivity|vm_compute; reflexivity|reflexivity|reflexivity
    |by vm_compute|reflexivity].
Defined.

Lemma verify_otp_answer_witness :
  ∃ isNewUser phone message,
    (verify_otp Demo.rt (Demo.request "+91 98765-43210" "") (Demo.mem 0 None)).1
    = Ret (OtpVerified isNewUser phone message)
    ∧ phone = "919876543210"
    ∧ Js.test_phone_format phone = true
    ∧ isNewUser = true.
Proof.
  eexists _, _, _. split; [vm_compute; reflexivity|].
  destruct (verify_otp_answer Demo.rt (Demo.request "+91 98765-43210" "")
              (Demo.mem 0 None) true "919876543210"
              "OTP verified. Please set up your MPIN."
              (after_call (Demo.mem 0 None) (Call_User_findOne "919876543210")))
    as (Hphone & Hfmt & _); [by vm_compute|].
  split; [reflexivity|]. split; [exact Hfmt|reflexivity].
Defined.

Lemma register_then_login_witness :
  ∃ token' userJson' riskScore riskFlags m2,
    login Demo.rt (Demo.request "9876543211" "enc:1234")
          (register Demo.rt (Demo.request "9876543211" "enc:1234")
                    (Demo.mem 0 None)).2
    = (Ret (LoggedIn token' userJson' riskScore riskFlags), m2)
    ∧ riskScore ≤ 15.
Proof.
  eapply (register_then_login Demo.rt (Demo.request "9876543211" "enc:1234")
            (Demo.mem 0 None)).
  - apply Forall_nil_2.
  - vm_compute. reflexivity.
Defined.
